(** * Finance manager: in-memory repository and derived aggregates

    A shallow embedding of [server/storage.ts] (class [MemStorage]) and of
    the aggregating request handlers of [server/routes.ts], with the
    properties of the repository-and-aggregation core stated and proved
    over it.

    Conventions of the embedding.
    - A JavaScript [number] holding an identifier, a counter or a limit is
      an integer [Z].  A monetary [number] is an exact rational [Qc]:
      rounding, infinities and NaN of IEEE doubles are outside the model.
      The one exception is the monthly summary, whose percent changes
      divide and whose zero guards depend on rounding: there [Number(x)]
      turns a stored amount into an IEEE double ([float]), and the sums,
      differences, quotients and comparisons are those of doubles.
    - A [Date] is its time value, the milliseconds since the epoch, as [Z];
      invalid dates are outside the model.
    - A [Map<number, T>] is an insertion-ordered association list
      ([JsMap.t]): [values()] enumerates in insertion order and [set] on a
      present key keeps the key's position, as in JavaScript.
    - A [Record<number, number>] used as a dictionary is a [gmap Z Qc].
    - [async] methods complete without suspending, so every method is a
      function from the store to a result and a new store. *)

From Stdlib Require Import QArith Qcanon.
From stdpp Require Import base numbers list strings gmap sorting.
From Stdlib Require Import PrimFloat.

Local Open Scope Z_scope.

(** ** JavaScript [Map] with numeric keys *)

Module JsMap.

Definition t (V : Type) : Type := list (Z * V).

Definition empty {V} : t V := [].

(** [Map.prototype.get]: the value stored under [k], if any. *)
Fixpoint get {V} (k : Z) (m : t V) : option V :=
  match m with
  | [] => None
  | (k', v) :: m' => if decide (k' = k) then Some v else get k m'
  end.

(** [Map.prototype.set]: overwrite in place when [k] is present, append
    at the end otherwise. *)
Fixpoint set {V} (k : Z) (v : V) (m : t V) : t V :=
  match m with
  | [] => [(k, v)]
  | (k', v') :: m' =>
      if decide (k' = k) then (k, v) :: m' else (k', v') :: set k v m'
  end.

(** [Array.from(m.values())]. *)
Definition values {V} (m : t V) : list V := m.*2.

Definition keys {V} (m : t V) : list Z := m.*1.

End JsMap.

(** ** Entity records *)

(** A [Date], as the milliseconds since the epoch. *)
Definition Date : Type := Z.

(** Modelled from the spec: the entity and insert-shape types of
    [@shared/schema], which [storage.ts] imports and which is not among the
    sources.  The fields are those of the data model (section 3) and of the
    object literals in [seedInitialData]. *)
Module InsertUser.
Record t := mk
  { username : string; password : string; email : string; name : string }.
End InsertUser.

Module User.
Record t := mk
  { id : Z; username : string; password : string; email : string;
    name : string; createdAt : Date }.
End User.

Module InsertAccount.
Record t := mk
  { userId : Z; name : string; type : string; balance : Qc;
    isConnected : bool }.
End InsertAccount.

Module Account.
Record t := mk
  { id : Z; userId : Z; name : string; type : string; balance : Qc;
    isConnected : bool }.
End Account.

Module InsertCategory.
Record t := mk
  { userId : Z; name : string; type : string; color : string;
    icon : string }.
End InsertCategory.

Module Category.
Record t := mk
  { id : Z; userId : Z; name : string; type : string; color : string;
    icon : string }.
End Category.

Module InsertTransaction.
Record t := mk
  { userId : Z; accountId : Z; categoryId : option Z; amount : Qc;
    description : string; date : Date; type : string;
    paymentMethod : string }.
End InsertTransaction.

Module Transaction.
Record t := mk
  { id : Z; userId : Z; accountId : Z; categoryId : option Z; amount : Qc;
    description : string; date : Date; type : string;
    paymentMethod : string }.
End Transaction.

Module InsertBudget.
Record t := mk
  { userId : Z; categoryId : Z; amount : Qc; period : string;
    startDate : Date; endDate : Date }.
End InsertBudget.

Module Budget.
Record t := mk
  { id : Z; userId : Z; categoryId : Z; amount : Qc; period : string;
    startDate : Date; endDate : Date }.
End Budget.

(** ** The store: [class MemStorage] *)

Record MemStorage := mkStorage
  { users : JsMap.t User.t;
    accounts : JsMap.t Account.t;
    categories : JsMap.t Category.t;
    transactions : JsMap.t Transaction.t;
    budgets : JsMap.t Budget.t;
    userIdCounter : Z;
    accountIdCounter : Z;
    categoryIdCounter : Z;
    transactionIdCounter : Z;
    budgetIdCounter : Z }.

(** [constructor()]: five empty maps, every counter at 1. *)
Definition newMemStorage : MemStorage :=
  {| users := JsMap.empty; accounts := JsMap.empty;
     categories := JsMap.empty; transactions := JsMap.empty;
     budgets := JsMap.empty;
     userIdCounter := 1; accountIdCounter := 1; categoryIdCounter := 1;
     transactionIdCounter := 1; budgetIdCounter := 1 |}.

(** The error thrown by [updateAccountBalance]:
    [new Error(`Account with ID ${id} not found`)]. *)
Inductive StorageError : Type :=
  | AccountNotFound (id : Z).

(** *** Users *)

Definition getUser (s : MemStorage) (id : Z) : option User.t :=
  JsMap.get id (users s).

(** [createUser]; [now] is the value of [new Date()] at the call. *)
Definition createUser (now : Date) (s : MemStorage) (insertUser : InsertUser.t)
  : User.t * MemStorage :=
  let id := userIdCounter s in
  let user :=
    {| User.id := id;
       User.username := InsertUser.username insertUser;
       User.password := InsertUser.password insertUser;
       User.email := InsertUser.email insertUser;
       User.name := InsertUser.name insertUser;
       User.createdAt := now |} in
  (user,
   {| users := JsMap.set id user (users s);
      accounts := accounts s; categories := categories s;
      transactions := transactions s; budgets := budgets s;
      userIdCounter := id + 1;
      accountIdCounter := accountIdCounter s;
      categoryIdCounter := categoryIdCounter s;
      transactionIdCounter := transactionIdCounter s;
      budgetIdCounter := budgetIdCounter s |}).

(** *** Accounts *)

Definition getAccount (s : MemStorage) (id : Z) : option Account.t :=
  JsMap.get id (accounts s).

Definition getAccountsByUserId (s : MemStorage) (userId : Z) : list Account.t :=
  filter (λ account, Account.userId account = userId)
         (JsMap.values (accounts s)).

Definition createAccount (s : MemStorage) (insertAccount : InsertAccount.t)
  : Account.t * MemStorage :=
  let id := accountIdCounter s in
  let account :=
    {| Account.id := id;
       Account.userId := InsertAccount.userId insertAccount;
       Account.name := InsertAccount.name insertAccount;
       Account.type := InsertAccount.type insertAccount;
       Account.balance := InsertAccount.balance insertAccount;
       Account.isConnected := InsertAccount.isConnected insertAccount |} in
  (account,
   {| users := users s;
      accounts := JsMap.set id account (accounts s);
      categories := categories s;
      transactions := transactions s; budgets := budgets s;
      userIdCounter := userIdCounter s;
      accountIdCounter := id + 1;
      categoryIdCounter := categoryIdCounter s;
      transactionIdCounter := transactionIdCounter s;
      budgetIdCounter := budgetIdCounter s |}).

(** [{ ...account, balance }]. *)
Definition withBalance (account : Account.t) (balance : Qc) : Account.t :=
  {| Account.id := Account.id account;
     Account.userId := Account.userId account;
     Account.name := Account.name account;
     Account.type := Account.type account;
     Account.balance := balance;
     Account.isConnected := Account.isConnected account |}.

(** [updateAccountBalance]: the left injection is the thrown error; the
    store is returned in both cases, so that the effect of a failing call
    can be stated. *)
Definition updateAccountBalance (s : MemStorage) (id : Z) (balance : Qc)
  : (StorageError + Account.t) * MemStorage :=
  match JsMap.get id (accounts s) with
  | None => (inl (AccountNotFound id), s)
  | Some account =>
      let updatedAccount := withBalance account balance in
      (inr updatedAccount,
       {| users := users s;
          accounts := JsMap.set id updatedAccount (accounts s);
          categories := categories s;
          transactions := transactions s; budgets := budgets s;
          userIdCounter := userIdCounter s;
          accountIdCounter := accountIdCounter s;
          categoryIdCounter := categoryIdCounter s;
          transactionIdCounter := transactionIdCounter s;
          budgetIdCounter := budgetIdCounter s |})
  end.

(** *** Categories *)

Definition getCategory (s : MemStorage) (id : Z) : option Category.t :=
  JsMap.get id (categories s).

Definition getCategoriesByUserId (s : MemStorage) (userId : Z)
  : list Category.t :=
  filter (λ category, Category.userId category = userId)
         (JsMap.values (categories s)).

Definition createCategory (s : MemStorage) (insertCategory : InsertCategory.t)
  : Category.t * MemStorage :=
  let id := categoryIdCounter s in
  let category :=
    {| Category.id := id;
       Category.userId := InsertCategory.userId insertCategory;
       Category.name := InsertCategory.name insertCategory;
       Category.type := InsertCategory.type insertCategory;
       Category.color := InsertCategory.color insertCategory;
       Category.icon := InsertCategory.icon insertCategory |} in
  (category,
   {| users := users s; accounts := accounts s;
      categories := JsMap.set id category (categories s);
      transactions := transactions s; budgets := budgets s;
      userIdCounter := userIdCounter s;
      accountIdCounter := accountIdCounter s;
      categoryIdCounter := id + 1;
      transactionIdCounter := transactionIdCounter s;
      budgetIdCounter := budgetIdCounter s |}).

(** *** Arrays *)

(** [Array.prototype.sort(cmp)], which is stable: [x] is placed after the
    elements that the comparator orders strictly before it, and before
    every other element of the already sorted suffix. *)
Fixpoint sortInsert {A} (cmp : A → A → Z) (x : A) (l : list A) : list A :=
  match l with
  | [] => [x]
  | y :: l' =>
      if decide (0 < cmp x y) then y :: sortInsert cmp x l' else x :: y :: l'
  end.

Definition sort {A} (cmp : A → A → Z) (l : list A) : list A :=
  foldr (sortInsert cmp) [] l.

(** [Array.prototype.slice(0, end)] for an integer [end]: a negative [end]
    counts from the end of the array. *)
Definition slice0 {A} (end_ : Z) (l : list A) : list A :=
  let len := Z.of_nat (length l) in
  let final :=
    if decide (end_ < 0) then Z.max (len + end_) 0 else Z.min end_ len in
  take (Z.to_nat final) l.

(** *** Transactions *)

Definition getTransaction (s : MemStorage) (id : Z) : option Transaction.t :=
  JsMap.get id (transactions s).

(** The comparator [(a, b) => new Date(b.date).getTime() -
    new Date(a.date).getTime()]. *)
Definition byDateDesc (a b : Transaction.t) : Z :=
  Transaction.date b - Transaction.date a.

Definition getTransactionsByUserId (s : MemStorage) (userId : Z)
  : list Transaction.t :=
  sort byDateDesc
    (filter (λ transaction, Transaction.userId transaction = userId)
            (JsMap.values (transactions s))).

Definition getTransactionsByDateRange (s : MemStorage) (userId : Z)
    (startDate endDate : Date) : list Transaction.t :=
  sort byDateDesc
    (filter (λ transaction,
               Transaction.userId transaction = userId ∧
               startDate ≤ Transaction.date transaction ∧
               Transaction.date transaction ≤ endDate)
            (JsMap.values (transactions s))).

Definition getRecentTransactions (s : MemStorage) (userId : Z) (limit : Z)
  : list Transaction.t :=
  slice0 limit
    (sort byDateDesc
       (filter (λ transaction, Transaction.userId transaction = userId)
               (JsMap.values (transactions s)))).

Definition createTransaction (s : MemStorage)
    (insertTransaction : InsertTransaction.t) : Transaction.t * MemStorage :=
  let id := transactionIdCounter s in
  let transaction :=
    {| Transaction.id := id;
       Transaction.userId := InsertTransaction.userId insertTransaction;
       Transaction.accountId := InsertTransaction.accountId insertTransaction;
       Transaction.categoryId := InsertTransaction.categoryId insertTransaction;
       Transaction.amount := InsertTransaction.amount insertTransaction;
       Transaction.description :=
         InsertTransaction.description insertTransaction;
       Transaction.date := InsertTransaction.date insertTransaction;
       Transaction.type := InsertTransaction.type insertTransaction;
       Transaction.paymentMethod :=
         InsertTransaction.paymentMethod insertTransaction |} in
  (transaction,
   {| users := users s; accounts := accounts s; categories := categories s;
      transactions := JsMap.set id transaction (transactions s);
      budgets := budgets s;
      userIdCounter := userIdCounter s;
      accountIdCounter := accountIdCounter s;
      categoryIdCounter := categoryIdCounter s;
      transactionIdCounter := id + 1;
      budgetIdCounter := budgetIdCounter s |}).

(** *** Budgets *)

Definition getBudget (s : MemStorage) (id : Z) : option Budget.t :=
  JsMap.get id (budgets s).

Definition getBudgetsByUserId (s : MemStorage) (userId : Z) : list Budget.t :=
  filter (λ budget, Budget.userId budget = userId)
         (JsMap.values (budgets s)).

Definition createBudget (s : MemStorage) (insertBudget : InsertBudget.t)
  : Budget.t * MemStorage :=
  let id := budgetIdCounter s in
  let budget :=
    {| Budget.id := id;
       Budget.userId := InsertBudget.userId insertBudget;
       Budget.categoryId := InsertBudget.categoryId insertBudget;
       Budget.amount := InsertBudget.amount insertBudget;
       Budget.period := InsertBudget.period insertBudget;
       Budget.startDate := InsertBudget.startDate insertBudget;
       Budget.endDate := InsertBudget.endDate insertBudget |} in
  (budget,
   {| users := users s; accounts := accounts s; categories := categories s;
      transactions := transactions s;
      budgets := JsMap.set id budget (budgets s);
      userIdCounter := userIdCounter s;
      accountIdCounter := accountIdCounter s;
      categoryIdCounter := categoryIdCounter s;
      transactionIdCounter := transactionIdCounter s;
      budgetIdCounter := id + 1 |}).

(** ** Request handlers of [routes.ts] *)

(** What a handler sends: [res.status(status).json(...)], the body being
    either the payload or [{ message }]. *)
Record Response (A : Type) := mkResponse
  { status : Z; json : A + string }.
Arguments mkResponse {A} _ _.
Arguments status {A} _.
Arguments json {A} _.

(** [POST /api/transactions], from [validatedData] on: the body has passed
    [insertTransactionSchema.parse] (a [ZodError] answers 400 before the
    store is touched).  An error thrown by the store is caught and answered
    with 500. *)
Definition postTransaction (s : MemStorage)
    (validatedData : InsertTransaction.t)
  : Response Transaction.t * MemStorage :=
  let '(createdTransaction, s1) := createTransaction s validatedData in
  let accountId := InsertTransaction.accountId validatedData in
  let amount := InsertTransaction.amount validatedData in
  let type := InsertTransaction.type validatedData in
  match getAccount s1 accountId with
  | Some account =>
      let newBalance :=
        if decide (type = "income")
        then (Account.balance account + amount)%Qc
        else (Account.balance account - amount)%Qc in
      match updateAccountBalance s1 accountId newBalance with
      | (inr _, s2) => (mkResponse 201 (inl createdTransaction), s2)
      | (inl _, s2) =>
          (mkResponse 500 (inr "Failed to create transaction"), s2)
      end
  | None => (mkResponse 201 (inl createdTransaction), s1)
  end.

(** JavaScript truthiness of an optional number: [undefined], [null] and
    [0] are falsy. *)
Definition falsyId (x : option Z) : bool :=
  match x with
  | None => true
  | Some n => bool_decide (n = 0)
  end.

Definition falsyNum (x : option Qc) : bool :=
  match x with
  | None => true
  | Some q => bool_decide (q = 0%Qc)
  end.

(** [x || 0] on an optional number. *)
Definition orZero (x : option Qc) : Qc :=
  match x with
  | Some q => if falsyNum x then 0%Qc else q
  | None => 0%Qc
  end.

(** The body of the [forEach] over [expenseTransactions] in the budget
    progress handler.  After the second statement [categorySpent[c]] is
    defined, so the read in [+=] never sees [undefined]. *)
Definition addSpent (categorySpent : gmap Z Qc) (transaction : Transaction.t)
  : gmap Z Qc :=
  if falsyId (Transaction.categoryId transaction) then categorySpent
  else
    let c := default 0 (Transaction.categoryId transaction) in
    let categorySpent1 :=
      if falsyNum (categorySpent !! c) then <[c := 0%Qc]> categorySpent
      else categorySpent in
    <[c := (default 0%Qc (categorySpent1 !! c)
            + Transaction.amount transaction)%Qc]> categorySpent1.

(** The body of the [forEach] over [budgets]. *)
Definition addProgress (categorySpent : gmap Z Qc) (result : gmap Z Qc)
    (budget : Budget.t) : gmap Z Qc :=
  <[Budget.id budget := orZero (categorySpent !! Budget.categoryId budget)]>
    result.

(** The payload of [GET /api/summary]. *)
Record Summary := mkSummary
  { totalBalance : float;
    balanceChange : float;
    monthlyIncome : float;
    incomeChange : float;
    monthlyExpenses : float;
    expensesChange : float;
    monthlySavings : float;
    savingsChange : float;
    monthlyData : list (string * Z * Z) }.

Section Handlers.

(** The calendar, which the handlers take from [date-fns] and from the
    [Date] constructor in the server's time zone. *)
Variable subDays : Date → Z → Date.
Variable subMonths : Date → Z → Date.
Variable startOfMonth : Date → Date.
Variable endOfMonth : Date → Date.
(** [new Date(year, monthIndex, day)]. *)
Variable newDate : Z → Z → Z → Date.
(** [date.getFullYear()]. *)
Variable getFullYear : Date → Z.
(** [Number(s)] on a query string, [None] when the result is no integer
    (so that no stored [categoryId] is [===] to it). *)
Variable toNumber : string → option Z.

(** The [switch (timeFrame)] of [GET /api/transactions]; [timeFrame] is
    [req.query.timeFrame], absent or a string, and [endDate] is
    [new Date()]. *)
Definition timeFrameStart (timeFrame : option string) (endDate : Date)
  : Date :=
  match timeFrame with
  | Some tf =>
      if decide (tf = "7days") then subDays endDate 7
      else if decide (tf = "30days") then subDays endDate 30
      else if decide (tf = "90days") then subDays endDate 90
      else if decide (tf = "year") then newDate (getFullYear endDate) 0 1
      else subDays endDate 7
  | None => subDays endDate 7
  end.

(** [GET /api/transactions] for the session's [userId], at time [now]. *)
Definition getTransactionsFeed (s : MemStorage) (userId : Z)
    (categoryId timeFrame : option string) (now : Date)
  : list Transaction.t :=
  let endDate := now in
  let startDate := timeFrameStart timeFrame endDate in
  let transactions :=
    getTransactionsByDateRange s userId startDate endDate in
  match categoryId with
  | Some c =>
      if decide (c ≠ EmptyString ∧ c ≠ "all") then
        match toNumber c with
        | Some n =>
            filter (λ t, Transaction.categoryId t = Some n) transactions
        | None => []
        end
      else transactions
  | None => transactions
  end.

(** [GET /api/budgets/progress/:yearMonth] for the session's [userId];
    [year] and [month] are the two numbers read from [yearMonth]. *)
Definition getBudgetProgress (s : MemStorage) (userId : Z) (year month : Z)
  : gmap Z Qc :=
  let monthStart := startOfMonth (newDate year (month - 1) 1) in
  let monthEnd := endOfMonth (newDate year (month - 1) 1) in
  let transactions :=
    getTransactionsByDateRange s userId monthStart monthEnd in
  let budgets := getBudgetsByUserId s userId in
  let expenseTransactions :=
    filter (λ t, Transaction.type t = "expense") transactions in
  let categorySpent := foldl addSpent ∅ expenseTransactions in
  foldl (addProgress categorySpent) ∅ budgets.

(** [Number(x)] on a stored amount: the IEEE double that the decimal [x]
    denotes in JavaScript. *)
Variable toDouble : Qc → float.

(** [.reduce((sum, t) => sum + Number(t.amount), 0)], in doubles. *)
Definition sumAmounts (l : list Transaction.t) : float :=
  foldl (λ sum t, (sum + toDouble (Transaction.amount t))%float) 0%float l.

(** [GET /api/summary] for the session's [userId]; [now] stands for every
    [new Date()] of the handler.  The arithmetic is that of doubles, and
    [prev === 0] is their equality ([+0] and [-0] are equal, [NaN] equals
    nothing). *)
Definition getSummary (s : MemStorage) (userId : Z) (now : Date) : Summary :=
  let currentMonthStart := startOfMonth now in
  let currentMonthEnd := endOfMonth now in
  let currentMonthTransactions :=
    getTransactionsByDateRange s userId currentMonthStart currentMonthEnd in
  let prevMonthStart := startOfMonth (subMonths now 1) in
  let prevMonthEnd := endOfMonth (subMonths now 1) in
  let prevMonthTransactions :=
    getTransactionsByDateRange s userId prevMonthStart prevMonthEnd in
  let currentIncome :=
    sumAmounts (filter (λ t, Transaction.type t = "income")
                       currentMonthTransactions) in
  let currentExpenses :=
    sumAmounts (filter (λ t, Transaction.type t = "expense")
                       currentMonthTransactions) in
  let currentSavings := (currentIncome - currentExpenses)%float in
  let prevIncome :=
    sumAmounts (filter (λ t, Transaction.type t = "income")
                       prevMonthTransactions) in
  let prevExpenses :=
    sumAmounts (filter (λ t, Transaction.type t = "expense")
                       prevMonthTransactions) in
  let prevSavings := (prevIncome - prevExpenses)%float in
  let incomeChange :=
    if (prevIncome =? 0)%float then 0%float
    else ((currentIncome - prevIncome) / prevIncome * 100)%float in
  let expensesChange :=
    if (prevExpenses =? 0)%float then 0%float
    else ((currentExpenses - prevExpenses) / prevExpenses * 100)%float in
  let savingsChange :=
    if (prevSavings =? 0)%float then 0%float
    else ((currentSavings - prevSavings) / prevSavings * 100)%float in
  let accounts := getAccountsByUserId s userId in
  let totalBalance :=
    foldl (λ sum account, (sum + toDouble (Account.balance account))%float)
          0%float accounts in
  {| totalBalance := totalBalance;
     balanceChange := 2.5%float;
     monthlyIncome := currentIncome;
     incomeChange := incomeChange;
     monthlyExpenses := currentExpenses;
     expensesChange := expensesChange;
     monthlySavings := currentSavings;
     savingsChange := savingsChange;
     monthlyData :=
       [("Jan", 4200, 3100); ("Feb", 4300, 3300); ("Mar", 4900, 3500);
        ("Apr", 4800, 3300); ("May", 5100, 3600); ("Jun", 4900, 3400);
        ("Jul", 5240, 3590)] |}.

End Handlers.

(** ** A calendar instance: UTC

    The proleptic Gregorian calendar with the server in UTC, used to run
    the handlers on concrete dates. *)
Module Utc.

Definition msPerDay : Z := 86400000.

(** Days from 1970-01-01 to the civil date [y]-[m]-[d], [m] in 1..12. *)
Definition daysFromCivil (y m d : Z) : Z :=
  let y' := if decide (m ≤ 2) then y - 1 else y in
  let era := y' `div` 400 in
  let yoe := y' - era * 400 in
  let mp := (m + 9) `mod` 12 in
  let doy := (153 * mp + 2) `div` 5 + d - 1 in
  let doe := yoe * 365 + yoe `div` 4 - yoe `div` 100 + doy in
  era * 146097 + doe - 719468.

(** The civil date (year, month in 1..12, day) of a day number. *)
Definition civilFromDays (z : Z) : Z * Z * Z :=
  let z' := z + 719468 in
  let era := z' `div` 146097 in
  let doe := z' - era * 146097 in
  let yoe :=
    (doe - doe `div` 1460 + doe `div` 36524 - doe `div` 146096) `div` 365 in
  let doy := doe - (365 * yoe + yoe `div` 4 - yoe `div` 100) in
  let mp := (5 * doy + 2) `div` 153 in
  let d := doy - (153 * mp + 2) `div` 5 + 1 in
  let m := if decide (mp < 10) then mp + 3 else mp - 9 in
  let y := yoe + era * 400 in
  (if decide (m ≤ 2) then y + 1 else y, m, d).

Definition yearOf (t : Date) : Z := (civilFromDays (t `div` msPerDay)).1.1.
Definition monthOf (t : Date) : Z := (civilFromDays (t `div` msPerDay)).1.2.
Definition dayOf (t : Date) : Z := (civilFromDays (t `div` msPerDay)).2.

(** [new Date(year, monthIndex, day)]: a month index outside 0..11 and a
    day outside the month carry over, and a year in 0..99 means 19xx. *)
Definition newDate (year monthIndex day : Z) : Date :=
  let year' := if decide (0 ≤ year ≤ 99) then 1900 + year else year in
  let y := year' + monthIndex `div` 12 in
  let m := monthIndex `mod` 12 + 1 in
  (daysFromCivil y m 1 + (day - 1)) * msPerDay.

Definition getFullYear (t : Date) : Z := yearOf t.

Definition subDays (t : Date) (amount : Z) : Date := t - amount * msPerDay.

Definition startOfMonth (t : Date) : Date :=
  daysFromCivil (yearOf t) (monthOf t) 1 * msPerDay.

(** The last millisecond of the month of [t]. *)
Definition endOfMonth (t : Date) : Date :=
  let y := yearOf t + monthOf t `div` 12 in
  let m := monthOf t `mod` 12 + 1 in
  daysFromCivil y m 1 * msPerDay - 1.

(** [subMonths]: the same day and time of day [amount] months earlier,
    the day clamped to the length of the target month. *)
Definition subMonths (t : Date) (amount : Z) : Date :=
  let idx := yearOf t * 12 + (monthOf t - 1) - amount in
  let y := idx `div` 12 in
  let m := idx `mod` 12 + 1 in
  let first := daysFromCivil y m 1 in
  let next := daysFromCivil (y + (m `div` 12)) (m `mod` 12 + 1) 1 in
  let daysInMonth := next - first in
  (first + Z.min (dayOf t) daysInMonth - 1) * msPerDay + t `mod` msPerDay.

(** [Number(s)] for the decimal numerals the examples use. *)
Definition toNumber (s : string) : option Z :=
  if decide (s = "1") then Some 1
  else if decide (s = "2") then Some 2
  else if decide (s = "3") then Some 3
  else None.

End Utc.

(** ** [Number] on decimals

    The double of a decimal given as a fraction of two integers below
    2^53: both are doubles exactly, and the quotient of two doubles is
    rounded to the nearest double; this is the double that JavaScript
    reads the decimal as. *)
Module Double.

(** A positive integer as a double, exact below 2^53. *)
Fixpoint ofPos (p : positive) : float :=
  match p with
  | xH => 1%float
  | xO p' => (2 * ofPos p')%float
  | xI p' => (2 * ofPos p' + 1)%float
  end.

Definition ofZ (z : Z) : float :=
  match z with
  | Z0 => 0%float
  | Zpos p => ofPos p
  | Zneg p => (- ofPos p)%float
  end.

Definition ofQc (q : Qc) : float :=
  (ofZ (Qnum q) / ofPos (Qden q))%float.

End Double.

(** ** A concrete store

    The demo data of [seedInitialData], dated in March 2024 (UTC), built by
    the repository's own operations: one user, two accounts, five
    categories, four budgets and five transactions. *)
Module Demo.

Definition now : Date := 1710506096000.   (* 2024-03-15T12:34:56Z *)

Definition tx (accountId : Z) (categoryId : option Z) (amount : Qc)
    (description : string) (day : Z) (type paymentMethod : string)
  : InsertTransaction.t :=
  {| InsertTransaction.userId := 1;
     InsertTransaction.accountId := accountId;
     InsertTransaction.categoryId := categoryId;
     InsertTransaction.amount := amount;
     InsertTransaction.description := description;
     InsertTransaction.date := Utc.newDate 2024 2 day;
     InsertTransaction.type := type;
     InsertTransaction.paymentMethod := paymentMethod |}.

Definition budget (categoryId : Z) (amount : Qc) : InsertBudget.t :=
  {| InsertBudget.userId := 1;
     InsertBudget.categoryId := categoryId;
     InsertBudget.amount := amount;
     InsertBudget.period := "monthly";
     InsertBudget.startDate := now;
     InsertBudget.endDate := Utc.newDate 2024 3 15 |}.

Definition category (name type color icon : string) : InsertCategory.t :=
  {| InsertCategory.userId := 1; InsertCategory.name := name;
     InsertCategory.type := type; InsertCategory.color := color;
     InsertCategory.icon := icon |}.

Definition store : MemStorage :=
  let s := newMemStorage in
  let s := (createUser now s
              {| InsertUser.username := "demo";
                 InsertUser.password := "password";
                 InsertUser.email := "demo@example.com";
                 InsertUser.name := "Demo User" |}).2 in
  let s := (createAccount s
              {| InsertAccount.userId := 1;
                 InsertAccount.name := "Checking Account";
                 InsertAccount.type := "checking";
                 InsertAccount.balance := Q2Qc 5000;
                 InsertAccount.isConnected := false |}).2 in
  let s := (createAccount s
              {| InsertAccount.userId := 1;
                 InsertAccount.name := "Savings Account";
                 InsertAccount.type := "savings";
                 InsertAccount.balance := Q2Qc 3254;
                 InsertAccount.isConnected := false |}).2 in
  let s := (createCategory s
              (category "Housing" "expense" "#2ECC71" "home")).2 in
  let s := (createCategory s
              (category "Food & Dining" "expense" "#3498DB"
                        "shopping-cart")).2 in
  let s := (createCategory s
              (category "Transportation" "expense" "#E74C3C" "car")).2 in
  let s := (createCategory s
              (category "Entertainment" "expense" "#9B59B6" "film")).2 in
  let s := (createCategory s
              (category "Income" "income" "#2ECC71" "dollar-sign")).2 in
  let s := (createBudget s (budget 1 (Q2Qc 1500))).2 in
  let s := (createBudget s (budget 2 (Q2Qc 800))).2 in
  let s := (createBudget s (budget 3 (Q2Qc 300))).2 in
  let s := (createBudget s (budget 4 (Q2Qc 300))).2 in
  let s := (createTransaction s
              (tx 1 (Some 5) (Q2Qc 2620) "Paycheck" 15 "income"
                  "Direct Deposit")).2 in
  let s := (createTransaction s
              (tx 1 (Some 1) (Q2Qc 1450) "Rent Payment" 20 "expense"
                  "Bank Transfer")).2 in
  let s := (createTransaction s
              (tx 1 (Some 2) (Q2Qc (8432 # 100)) "Whole Foods Market" 24
                  "expense" "Debit Card")).2 in
  let s := (createTransaction s
              (tx 1 (Some 3) (Q2Qc (4567 # 100)) "Shell Gas Station" 12
                  "expense" "Credit Card")).2 in
  let s := (createTransaction s
              (tx 1 (Some 4) (Q2Qc (1499 # 100)) "Netflix Subscription" 10
                  "expense" "Credit Card")).2 in
  s.

(** The first transaction of [store]. *)
Definition paycheck : Transaction.t :=
  {| Transaction.id := 1; Transaction.userId := 1;
     Transaction.accountId := 1; Transaction.categoryId := Some 5;
     Transaction.amount := Q2Qc 2620;
     Transaction.description := "Paycheck";
     Transaction.date := 1710460800000;   (* 2024-03-15T00:00:00Z *)
     Transaction.type := "income";
     Transaction.paymentMethod := "Direct Deposit" |}.

(** The budget scenario of the specification: a budget of 200 on the
    category "Food" and two expenses of 50 and 30 in it, in March 2024. *)
Definition foodStore : MemStorage :=
  let s := newMemStorage in
  let s := (createUser now s
              {| InsertUser.username := "demo";
                 InsertUser.password := "password";
                 InsertUser.email := "demo@example.com";
                 InsertUser.name := "Demo User" |}).2 in
  let s := (createCategory s
              (category "Food" "expense" "#3498DB" "shopping-cart")).2 in
  let s := (createBudget s (budget 1 (Q2Qc 200))).2 in
  let s := (createTransaction s
              (tx 1 (Some 1) (Q2Qc 50) "Groceries" 3 "expense" "Cash")).2 in
  let s := (createTransaction s
              (tx 1 (Some 1) (Q2Qc 30) "Lunch" 9 "expense" "Cash")).2 in
  s.

(** Three transactions dated the 1st, the 15th and the 10th of the month,
    created in that order. *)
Definition threeDates : MemStorage :=
  let s := newMemStorage in
  let s := (createTransaction s
              (tx 1 None (Q2Qc 1) "first" 1 "expense" "Cash")).2 in
  let s := (createTransaction s
              (tx 1 None (Q2Qc 1) "fifteenth" 15 "expense" "Cash")).2 in
  let s := (createTransaction s
              (tx 1 None (Q2Qc 1) "tenth" 10 "expense" "Cash")).2 in
  s.

(** A store whose only budget and only transaction both carry the
    categoryId 0. *)
Definition zeroStore : MemStorage :=
  let s := newMemStorage in
  let s := (createUser now s
              {| InsertUser.username := "demo";
                 InsertUser.password := "password";
                 InsertUser.email := "demo@example.com";
                 InsertUser.name := "Demo User" |}).2 in
  let s := (createBudget s (budget 0 (Q2Qc 100))).2 in
  let s := (createTransaction s
              (tx 1 (Some 0) (Q2Qc 5) "Misc" 16 "expense" "Cash")).2 in
  s.

Definition zeroBudget : Budget.t :=
  {| Budget.id := 1; Budget.userId := 1; Budget.categoryId := 0;
     Budget.amount := Q2Qc 100; Budget.period := "monthly";
     Budget.startDate := now; Budget.endDate := Utc.newDate 2024 3 15 |}.

(** Previous month (February 2024): incomes of 0.1 and 0.2 and an
    expense of 0.3; current month: an income of 100. *)
Definition roundingStore : MemStorage :=
  let s := newMemStorage in
  let feb (amount : Qc) (type : string) : InsertTransaction.t :=
    {| InsertTransaction.userId := 1; InsertTransaction.accountId := 1;
       InsertTransaction.categoryId := None;
       InsertTransaction.amount := amount;
       InsertTransaction.description := "February";
       InsertTransaction.date := Utc.newDate 2024 1 10;
       InsertTransaction.type := type;
       InsertTransaction.paymentMethod := "Cash" |} in
  let s := (createTransaction s (feb (Q2Qc (1 # 10)) "income")).2 in
  let s := (createTransaction s (feb (Q2Qc (2 # 10)) "income")).2 in
  let s := (createTransaction s (feb (Q2Qc (3 # 10)) "expense")).2 in
  let s := (createTransaction s
              (tx 1 None (Q2Qc 100) "March" 5 "income" "Cash")).2 in
  s.

End Demo.

(** ** Sequences of calls *)

(** One [create] method called on each insert shape of [xs] in turn: the
    created records in call order, and the store after the last call. *)
Fixpoint createAll {I T} (create : MemStorage → I → T * MemStorage)
    (s : MemStorage) (xs : list I) : list T * MemStorage :=
  match xs with
  | [] => ([], s)
  | x :: xs' =>
      let '(t, s1) := create s x in
      let '(ts, s2) := createAll create s1 xs' in
      (t :: ts, s2)
  end.

(** Id monotonicity, in the words of the specification: the records
    [created] by [N] calls carry the ids 1, 2, ..., [N] in call order; the
    ids are distinct and positive, and each still names its own record in
    the store ([lookup]) after the last call. *)
Definition idsAssignedInOrder {T} (idOf : T → Z) (lookup : Z → option T)
    (created : list T) : Prop :=
  idOf <$> created = seqZ 1 (Z.of_nat (length created)) ∧
  NoDup (idOf <$> created) ∧
  Forall (λ t, 0 < idOf t) created ∧
  Forall (λ t, lookup (idOf t) = Some t) created.

(** ** Specification-side aggregates

    The derived figures in the words of the specification, taken over the
    stored transactions directly. *)

(** The sum of a list of amounts. *)
Definition total (amounts : list Qc) : Qc := foldr Qcplus 0%Qc amounts.

(** The value of a month for a type, as the summary takes it: the doubles
    of the amounts of the stored transactions of [userId] that have the
    given [type] and are dated within [startDate, endDate], added up from
    0 in descending order of date (equal dates in insertion order). *)
Definition monthValue (toDouble : Qc → float) (s : MemStorage) (userId : Z)
    (type : string) (startDate endDate : Date) : float :=
  foldl PrimFloat.add 0%float
    ((λ t, toDouble (Transaction.amount t))
     <$> sort byDateDesc
           (filter (λ t, Transaction.userId t = userId ∧
                         Transaction.type t = type ∧
                         startDate ≤ Transaction.date t ≤ endDate)
                   (JsMap.values (transactions s)))).

(** The sum of the amounts of the stored type="expense" transactions of
    [userId] dated within [startDate, endDate] whose categoryId is [c];
    a transaction without a categoryId belongs to no [c]. *)
Definition spentInCategory (s : MemStorage) (userId : Z)
    (startDate endDate : Date) (c : Z) : Qc :=
  total (Transaction.amount <$>
         filter (λ t, Transaction.userId t = userId ∧
                      Transaction.type t = "expense" ∧
                      startDate ≤ Transaction.date t ≤ endDate ∧
                      Transaction.categoryId t = Some c)
                (JsMap.values (transactions s))).

(** Descending by date: an element is dated no earlier than the ones
    after it. *)
Definition dateDesc (a b : Transaction.t) : Prop :=
  Transaction.date b ≤ Transaction.date a.

(** ** Reachable stores *)

(** The stores the program can be in: the fresh store of [new MemStorage()]
    and whatever the mutating methods make of a reachable store. *)
Inductive reachable : MemStorage → Prop :=
  | reach_new : reachable newMemStorage
  | reach_createUser now s x :
      reachable s → reachable (createUser now s x).2
  | reach_createAccount s x :
      reachable s → reachable (createAccount s x).2
  | reach_updateAccountBalance s id balance :
      reachable s → reachable (updateAccountBalance s id balance).2
  | reach_createCategory s x :
      reachable s → reachable (createCategory s x).2
  | reach_createTransaction s x :
      reachable s → reachable (createTransaction s x).2
  | reach_createBudget s x :
      reachable s → reachable (createBudget s x).2.

(** The invariant of one entity map: keys are distinct, every record is
    stored under its own id, and every key lies in [1, counter). *)
Definition wfMap {T} (idOf : T → Z) (counter : Z) (m : JsMap.t T) : Prop :=
  1 ≤ counter ∧
  NoDup (JsMap.keys m) ∧
  Forall (λ kv, idOf kv.2 = kv.1 ∧ 1 ≤ kv.1 < counter) m.

Definition wfStore (s : MemStorage) : Prop :=
  wfMap User.id (userIdCounter s) (users s) ∧
  wfMap Account.id (accountIdCounter s) (accounts s) ∧
  wfMap Category.id (categoryIdCounter s) (categories s) ∧
  wfMap Transaction.id (transactionIdCounter s) (transactions s) ∧
  wfMap Budget.id (budgetIdCounter s) (budgets s).

(** The keys of the five maps, in insertion order, are 1, 2, ... up to
    the last id handed out for the kind. *)
Definition keysInOrder (s : MemStorage) : Prop :=
  JsMap.keys (users s) = seqZ 1 (userIdCounter s - 1) ∧
  JsMap.keys (accounts s) = seqZ 1 (accountIdCounter s - 1) ∧
  JsMap.keys (categories s) = seqZ 1 (categoryIdCounter s - 1) ∧
  JsMap.keys (transactions s) = seqZ 1 (transactionIdCounter s - 1) ∧
  JsMap.keys (budgets s) = seqZ 1 (budgetIdCounter s - 1).

(** ** The rest of the repository and of the routes *)

(** A user as the auth routes send it:
    [const { password, ...userWithoutPassword } = user]. *)
Module UserWithoutPassword.
Record t := mk
  { id : Z; username : string; email : string; name : string;
    createdAt : Date }.
End UserWithoutPassword.

Definition withoutPassword (user : User.t) : UserWithoutPassword.t :=
  {| UserWithoutPassword.id := User.id user;
     UserWithoutPassword.username := User.username user;
     UserWithoutPassword.email := User.email user;
     UserWithoutPassword.name := User.name user;
     UserWithoutPassword.createdAt := User.createdAt user |}.

(** [Array.prototype.find]: the first element that satisfies [P]. *)
Definition arrayFind {A} (P : A → Prop) `{∀ x, Decision (P x)} (l : list A)
  : option A :=
  snd <$> list_find P l.

(** The session of a request: [req.session.userId], absent or a number. *)
Definition Session : Type := option Z.

(** The middleware [isAuthenticated]: [next] runs when
    [req.session.userId] is truthy, and the request is answered
    [unauthorized] otherwise. *)
Definition isAuthenticated {A} (session : Session) (unauthorized : A)
    (next : Z → A) : A :=
  match session with
  | Some userId => if decide (userId = 0) then unauthorized else next userId
  | None => unauthorized
  end.

Definition unauthorized {A} : Response A :=
  mkResponse 401 (inr "Unauthorized").

Section Auth.

(** [String.prototype.toLowerCase]. *)
Variable toLowerCase : string → string.

Definition getUserByUsername (s : MemStorage) (username : string)
  : option User.t :=
  arrayFind (λ user, toLowerCase (User.username user) = toLowerCase username)
            (JsMap.values (users s)).

Definition getUserByEmail (s : MemStorage) (email : string)
  : option User.t :=
  arrayFind (λ user, toLowerCase (User.email user) = toLowerCase email)
            (JsMap.values (users s)).

(** [POST /api/auth/register], from [validatedData] on; [now] is the
    [new Date()] of [createUser]. *)
Definition postRegister (now : Date) (s : MemStorage)
    (validatedData : InsertUser.t)
  : Response UserWithoutPassword.t * MemStorage :=
  match getUserByUsername s (InsertUser.username validatedData) with
  | Some existingUser => (mkResponse 400 (inr "Username already taken"), s)
  | None =>
      match getUserByEmail s (InsertUser.email validatedData) with
      | Some existingEmail => (mkResponse 400 (inr "Email already in use"), s)
      | None =>
          let '(user, s1) := createUser now s validatedData in
          (mkResponse 201 (inl (withoutPassword user)), s1)
      end
  end.

(** [POST /api/auth/login], from the validated [username] and [password]
    on: the response and the session after the request.  The store is only
    read. *)
Definition postLogin (s : MemStorage) (session : Session)
    (username password : string)
  : Response UserWithoutPassword.t * Session :=
  match getUserByUsername s username with
  | Some user =>
      if decide (User.password user ≠ password)
      then (mkResponse 401 (inr "Invalid credentials"), session)
      else (mkResponse 200 (inl (withoutPassword user)), Some (User.id user))
  | None => (mkResponse 401 (inr "Invalid credentials"), session)
  end.

End Auth.

(** [POST /api/auth/logout] with a [destroy] that succeeds: the session is
    gone. *)
Definition postLogout (session : Session) : Response string * Session :=
  (mkResponse 200 (inr "Logged out successfully"), None).

(** [GET /api/auth/me]. *)
Definition getMe (s : MemStorage) (session : Session)
  : Response UserWithoutPassword.t :=
  isAuthenticated session unauthorized (λ userId,
    match getUser s userId with
    | Some user => mkResponse 200 (inl (withoutPassword user))
    | None => mkResponse 404 (inr "User not found")
    end).

(** [GET /api/accounts], [GET /api/categories], [GET /api/budgets],
    [GET /api/transactions/recent]. *)
Definition getAccounts (s : MemStorage) (session : Session)
  : Response (list Account.t) :=
  isAuthenticated session unauthorized (λ userId,
    mkResponse 200 (inl (getAccountsByUserId s userId))).

Definition getCategories (s : MemStorage) (session : Session)
  : Response (list Category.t) :=
  isAuthenticated session unauthorized (λ userId,
    mkResponse 200 (inl (getCategoriesByUserId s userId))).

Definition getBudgets (s : MemStorage) (session : Session)
  : Response (list Budget.t) :=
  isAuthenticated session unauthorized (λ userId,
    mkResponse 200 (inl (getBudgetsByUserId s userId))).

Definition getRecent (s : MemStorage) (session : Session)
  : Response (list Transaction.t) :=
  isAuthenticated session unauthorized (λ userId,
    mkResponse 200 (inl (getRecentTransactions s userId 5))).

(** [POST /api/accounts] for a [body] that passes [insertAccountSchema]:
    [{ ...req.body, userId }] puts the session's user in place of whatever
    [userId] the body carries. *)
Definition postAccount (s : MemStorage) (session : Session)
    (body : InsertAccount.t) : Response Account.t * MemStorage :=
  isAuthenticated session (unauthorized, s) (λ userId,
    let validatedData :=
      {| InsertAccount.userId := userId;
         InsertAccount.name := InsertAccount.name body;
         InsertAccount.type := InsertAccount.type body;
         InsertAccount.balance := InsertAccount.balance body;
         InsertAccount.isConnected := InsertAccount.isConnected body |} in
    let '(createdAccount, s1) := createAccount s validatedData in
    (mkResponse 201 (inl createdAccount), s1)).

(** [POST /api/categories], likewise. *)
Definition postCategory (s : MemStorage) (session : Session)
    (body : InsertCategory.t) : Response Category.t * MemStorage :=
  isAuthenticated session (unauthorized, s) (λ userId,
    let validatedData :=
      {| InsertCategory.userId := userId;
         InsertCategory.name := InsertCategory.name body;
         InsertCategory.type := InsertCategory.type body;
         InsertCategory.color := InsertCategory.color body;
         InsertCategory.icon := InsertCategory.icon body |} in
    let '(createdCategory, s1) := createCategory s validatedData in
    (mkResponse 201 (inl createdCategory), s1)).

(** [POST /api/budgets], likewise. *)
Definition postBudget (s : MemStorage) (session : Session)
    (body : InsertBudget.t) : Response Budget.t * MemStorage :=
  isAuthenticated session (unauthorized, s) (λ userId,
    let validatedData :=
      {| InsertBudget.userId := userId;
         InsertBudget.categoryId := InsertBudget.categoryId body;
         InsertBudget.amount := InsertBudget.amount body;
         InsertBudget.period := InsertBudget.period body;
         InsertBudget.startDate := InsertBudget.startDate body;
         InsertBudget.endDate := InsertBudget.endDate body |} in
    let '(createdBudget, s1) := createBudget s validatedData in
    (mkResponse 201 (inl createdBudget), s1)).

(** [POST /api/transactions] as a whole, for a [body] that passes
    [insertTransactionSchema]. *)
Definition postTransactionRequest (s : MemStorage) (session : Session)
    (body : InsertTransaction.t) : Response Transaction.t * MemStorage :=
  isAuthenticated session (unauthorized, s) (λ userId,
    postTransaction s
      {| InsertTransaction.userId := userId;
         InsertTransaction.accountId := InsertTransaction.accountId body;
         InsertTransaction.categoryId := InsertTransaction.categoryId body;
         InsertTransaction.amount := InsertTransaction.amount body;
         InsertTransaction.description := InsertTransaction.description body;
         InsertTransaction.date := InsertTransaction.date body;
         InsertTransaction.type := InsertTransaction.type body;
         InsertTransaction.paymentMethod :=
           InsertTransaction.paymentMethod body |}).

Section Seed.

Variable toLowerCase : string → string.
Variable newDate : Z → Z → Z → Date.
Variable getFullYear : Date → Z.
(** [date.getMonth()] and [date.setMonth(month)], the latter as the time
    value it returns. *)
Variable getMonth : Date → Z.
Variable setMonth : Date → Z → Date.

Definition seedCategory (userId : Z) (name type color icon : string)
  : InsertCategory.t :=
  {| InsertCategory.userId := userId; InsertCategory.name := name;
     InsertCategory.type := type; InsertCategory.color := color;
     InsertCategory.icon := icon |}.

(** A budget of [seedInitialData]: monthly, from [new Date()] to
    [new Date(new Date().setMonth(new Date().getMonth() + 1))]. *)
Definition seedBudget (now : Date) (userId categoryId : Z) (amount : Qc)
  : InsertBudget.t :=
  {| InsertBudget.userId := userId;
     InsertBudget.categoryId := categoryId;
     InsertBudget.amount := amount;
     InsertBudget.period := "monthly";
     InsertBudget.startDate := now;
     InsertBudget.endDate := setMonth now (getMonth now + 1) |}.

(** A transaction of [seedInitialData], dated
    [new Date(currentDate.getFullYear(), currentDate.getMonth(), day)]. *)
Definition seedTransaction (currentDate : Date) (userId accountId : Z)
    (categoryId : Z) (amount : Qc) (description : string) (day : Z)
    (type paymentMethod : string) : InsertTransaction.t :=
  {| InsertTransaction.userId := userId;
     InsertTransaction.accountId := accountId;
     InsertTransaction.categoryId := Some categoryId;
     InsertTransaction.amount := amount;
     InsertTransaction.description := description;
     InsertTransaction.date :=
       newDate (getFullYear currentDate) (getMonth currentDate) day;
     InsertTransaction.type := type;
     InsertTransaction.paymentMethod := paymentMethod |}.

(** [seedInitialData]; [now] stands for every [new Date()] of the run.  An
    error thrown on the way would be caught and logged, leaving the store
    as it is at that point. *)
Definition seedInitialData (now : Date) (s : MemStorage) : MemStorage :=
  match getUserByUsername toLowerCase s "demo" with
  | Some existingUser => s
  | None =>
      let '(user, s) :=
        createUser now s
          {| InsertUser.username := "demo";
             InsertUser.password := "password";
             InsertUser.email := "demo@example.com";
             InsertUser.name := "Demo User" |} in
      let '(checkingAccount, s) :=
        createAccount s
          {| InsertAccount.userId := User.id user;
             InsertAccount.name := "Checking Account";
             InsertAccount.type := "checking";
             InsertAccount.balance := Q2Qc 5000;
             InsertAccount.isConnected := false |} in
      let '(savingsAccount, s) :=
        createAccount s
          {| InsertAccount.userId := User.id user;
             InsertAccount.name := "Savings Account";
             InsertAccount.type := "savings";
             InsertAccount.balance := Q2Qc 3254;
             InsertAccount.isConnected := false |} in
      let '(housingCategory, s) :=
        createCategory s
          (seedCategory (User.id user) "Housing" "expense" "#2ECC71" "home") in
      let '(foodCategory, s) :=
        createCategory s
          (seedCategory (User.id user) "Food & Dining" "expense" "#3498DB"
                        "shopping-cart") in
      let '(transportationCategory, s) :=
        createCategory s
          (seedCategory (User.id user) "Transportation" "expense" "#E74C3C"
                        "car") in
      let '(entertainmentCategory, s) :=
        createCategory s
          (seedCategory (User.id user) "Entertainment" "expense" "#9B59B6"
                        "film") in
      let '(incomeCategory, s) :=
        createCategory s
          (seedCategory (User.id user) "Income" "income" "#2ECC71"
                        "dollar-sign") in
      let s := (createBudget s
                  (seedBudget now (User.id user)
                     (Category.id housingCategory) (Q2Qc 1500))).2 in
      let s := (createBudget s
                  (seedBudget now (User.id user)
                     (Category.id foodCategory) (Q2Qc 800))).2 in
      let s := (createBudget s
                  (seedBudget now (User.id user)
                     (Category.id transportationCategory) (Q2Qc 300))).2 in
      let s := (createBudget s
                  (seedBudget now (User.id user)
                     (Category.id entertainmentCategory) (Q2Qc 300))).2 in
      let currentDate := now in
      let s := (createTransaction s
                  (seedTransaction currentDate (User.id user)
                     (Account.id checkingAccount) (Category.id incomeCategory)
                     (Q2Qc 2620) "Paycheck" 15 "income"
                     "Direct Deposit")).2 in
      let s := (createTransaction s
                  (seedTransaction currentDate (User.id user)
                     (Account.id checkingAccount)
                     (Category.id housingCategory)
                     (Q2Qc 1450) "Rent Payment" 20 "expense"
                     "Bank Transfer")).2 in
      let s := (createTransaction s
                  (seedTransaction currentDate (User.id user)
                     (Account.id checkingAccount) (Category.id foodCategory)
                     (Q2Qc (8432 # 100)) "Whole Foods Market" 24 "expense"
                     "Debit Card")).2 in
      let s := (createTransaction s
                  (seedTransaction currentDate (User.id user)
                     (Account.id checkingAccount)
                     (Category.id transportationCategory)
                     (Q2Qc (4567 # 100)) "Shell Gas Station" 12 "expense"
                     "Credit Card")).2 in
      let s := (createTransaction s
                  (seedTransaction currentDate (User.id user)
                     (Account.id checkingAccount)
                     (Category.id entertainmentCategory)
                     (Q2Qc (1499 # 100)) "Netflix Subscription" 10 "expense"
                     "Credit Card")).2 in
      (updateAccountBalance s (Account.id checkingAccount)
         (Q2Qc 2620 - Q2Qc 1450 - Q2Qc (8432 # 100) - Q2Qc (4567 # 100)
          - Q2Qc (1499 # 100))%Qc).2
  end.

End Seed.

(** ** More of the UTC calendar, and lower-casing of ASCII letters *)

Module UtcMore.

Definition getMonth (t : Date) : Z := Utc.monthOf t - 1.

(** [setMonth]: the month index replaced, the day of the month and the
    time of day kept; an index outside 0..11 and a day beyond the month's
    end carry over. *)
Definition setMonth (t : Date) (monthIndex : Z) : Date :=
  let y := Utc.yearOf t + monthIndex `div` 12 in
  let m := monthIndex `mod` 12 + 1 in
  (Utc.daysFromCivil y m 1 + (Utc.dayOf t - 1)) * Utc.msPerDay
  + t `mod` Utc.msPerDay.

Definition lowerAscii (c : Ascii.ascii) : Ascii.ascii :=
  let n := Ascii.N_of_ascii c in
  if decide (65 ≤ n ≤ 90)%N then Ascii.ascii_of_N (n + 32) else c.

Fixpoint toLowerCase (s : string) : string :=
  match s with
  | EmptyString => EmptyString
  | String c s' => String (lowerAscii c) (toLowerCase s')
  end.

End UtcMore.

(** ** Further specification-side predicates *)

(** A [create] call on [s] hands out an id under which nothing was stored,
    stores the created record under it, and changes no other lookup of the
    kind. *)
Definition createsFresh {I T} (create : MemStorage → I → T * MemStorage)
    (idOf : T → Z) (lookup : MemStorage → Z → option T)
    (s : MemStorage) (x : I) : Prop :=
  lookup s (idOf (create s x).1) = None ∧
  lookup (create s x).2 (idOf (create s x).1) = Some (create s x).1 ∧
  ∀ id, id ≠ idOf (create s x).1 → lookup (create s x).2 id = lookup s id.

(** No two stored users share a username, and no two share an email, when
    compared case-insensitively. *)
Definition usersDistinct (toLowerCase : string → string) (s : MemStorage)
  : Prop :=
  NoDup ((λ user, toLowerCase (User.username user))
         <$> JsMap.values (users s)) ∧
  NoDup ((λ user, toLowerCase (User.email user))
         <$> JsMap.values (users s)).

(** The two halves of [usersDistinct] on their own. *)
Definition usernamesDistinct (toLowerCase : string → string)
    (s : MemStorage) : Prop :=
  NoDup ((λ user, toLowerCase (User.username user))
         <$> JsMap.values (users s)).

Definition emailsDistinct (toLowerCase : string → string)
    (s : MemStorage) : Prop :=
  NoDup ((λ user, toLowerCase (User.email user))
         <$> JsMap.values (users s)).
(** * Properties *)

(** ** [JsMap] *)

Module JsMapFacts.

Lemma get_set_eq {V} (k : Z) (v : V) (m : JsMap.t V) :
  JsMap.get k (JsMap.set k v m) = Some v.
Proof.
  induction m as [|[k' v'] m IH]; simpl.
  - by rewrite decide_True.
  - destruct (decide (k' = k)) as [->|Hne]; simpl.
    + by rewrite decide_True.
    + by rewrite decide_False.
Qed.

Lemma get_set_ne {V} (k k' : Z) (v : V) (m : JsMap.t V) :
  k ≠ k' → JsMap.get k' (JsMap.set k v m) = JsMap.get k' m.
Proof.
  intros Hne. induction m as [|[k0 v0] m IH]; simpl.
  - by rewrite decide_False.
  - destruct (decide (k0 = k)) as [->|Hk0]; simpl.
    + by rewrite !decide_False.
    + by rewrite IH.
Qed.

Lemma get_None {V} (k : Z) (m : JsMap.t V) :
  JsMap.get k m = None ↔ k ∉ JsMap.keys m.
Proof.
  unfold JsMap.keys. induction m as [|[k' v'] m IH]; simpl.
  - split; [intros _; apply not_elem_of_nil | done].
  - rewrite not_elem_of_cons. destruct (decide (k' = k)) as [->|Hne].
    + split; [done | intros [? _]; done].
    + rewrite IH. split; [by intros ? | by intros [_ ?]].
Qed.

Lemma get_Some_elem {V} (k : Z) (v : V) (m : JsMap.t V) :
  JsMap.get k m = Some v → (k, v) ∈ m.
Proof.
  induction m as [|[k' v'] m IH]; simpl; [done|].
  destruct (decide (k' = k)) as [->|Hne].
  - intros [= ->]. apply list_elem_of_here.
  - intros H. apply list_elem_of_further, IH, H.
Qed.

Lemma elem_get_Some {V} (k : Z) (v : V) (m : JsMap.t V) :
  NoDup (JsMap.keys m) → (k, v) ∈ m → JsMap.get k m = Some v.
Proof.
  unfold JsMap.keys. induction m as [|[k' v'] m IH]; simpl.
  - intros _ H. by apply elem_of_nil in H.
  - rewrite NoDup_cons. intros [Hk' Hnd] [[= -> ->]|Hin]%elem_of_cons.
    + by rewrite decide_True.
    + rewrite decide_False; [by apply IH|].
      intros ->. apply Hk'. apply list_elem_of_fmap. by exists (k, v).
Qed.

(** Setting an absent key appends the binding. *)
Lemma set_absent {V} (k : Z) (v : V) (m : JsMap.t V) :
  JsMap.get k m = None → JsMap.set k v m = m ++ [(k, v)].
Proof.
  induction m as [|[k' v'] m IH]; simpl; [done|].
  destruct (decide (k' = k)); [done|]. intros H. by rewrite IH.
Qed.

(** Setting a present key keeps the keys and their order. *)
Lemma keys_set_present {V} (k : Z) (v : V) (m : JsMap.t V) :
  is_Some (JsMap.get k m) → JsMap.keys (JsMap.set k v m) = JsMap.keys m.
Proof.
  unfold JsMap.keys. induction m as [|[k' v'] m IH]; simpl.
  - intros [? ?]; done.
  - destruct (decide (k' = k)) as [->|Hne]; csimpl; [done|].
    intros H. f_equal. by apply IH.
Qed.

Lemma values_set_absent {V} (k : Z) (v : V) (m : JsMap.t V) :
  JsMap.get k m = None →
  JsMap.values (JsMap.set k v m) = JsMap.values m ++ [v].
Proof.
  intros H. rewrite set_absent by done. unfold JsMap.values.
  by rewrite fmap_app.
Qed.

End JsMapFacts.

(** ** Balance update *)

(** The successful path of [updateAccountBalance], field by field. *)
Lemma updateAccountBalance_present (s : MemStorage) (id : Z) (b : Qc)
    (account : Account.t) :
  getAccount s id = Some account →
  ∃ s',
    updateAccountBalance s id b = (inr (withBalance account b), s') ∧
    accounts s' = JsMap.set id (withBalance account b) (accounts s) ∧
    users s' = users s ∧ categories s' = categories s ∧
    transactions s' = transactions s ∧ budgets s' = budgets s ∧
    userIdCounter s' = userIdCounter s ∧
    accountIdCounter s' = accountIdCounter s ∧
    categoryIdCounter s' = categoryIdCounter s ∧
    transactionIdCounter s' = transactionIdCounter s ∧
    budgetIdCounter s' = budgetIdCounter s.
Proof.
  unfold getAccount, updateAccountBalance. intros ->.
  eexists. split; [reflexivity|]. simpl. repeat split.
Qed.

(** C3.  On an account id present in the store, [updateAccountBalance]
    returns the stored account with its balance replaced by the new value
    and every other field (id, userId, name, type, isConnected) as before;
    the returned record is what the store now holds under the id, every
    other account id reads as before, the order of the account keys is
    kept, and the users, categories, transactions, budgets and the five
    counters are unchanged. *)
Theorem updateAccountBalance_frame (s : MemStorage) (id : Z) (b : Qc)
    (account : Account.t) :
  getAccount s id = Some account →
  ∃ updated s',
    updateAccountBalance s id b = (inr updated, s') ∧
    Account.balance updated = b ∧
    Account.id updated = Account.id account ∧
    Account.userId updated = Account.userId account ∧
    Account.name updated = Account.name account ∧
    Account.type updated = Account.type account ∧
    Account.isConnected updated = Account.isConnected account ∧
    getAccount s' id = Some updated ∧
    (∀ id', id' ≠ id → getAccount s' id' = getAccount s id') ∧
    JsMap.keys (accounts s') = JsMap.keys (accounts s) ∧
    users s' = users s ∧ categories s' = categories s ∧
    transactions s' = transactions s ∧ budgets s' = budgets s ∧
    userIdCounter s' = userIdCounter s ∧
    accountIdCounter s' = accountIdCounter s ∧
    categoryIdCounter s' = categoryIdCounter s ∧
    transactionIdCounter s' = transactionIdCounter s ∧
    budgetIdCounter s' = budgetIdCounter s.
Proof.
  intros Hget.
  destruct (updateAccountBalance_present s id b account Hget)
    as (s' & Hrun & Hacc & Hrest).
  exists (withBalance account b), s'. split; [exact Hrun|].
  do 6 (split; [reflexivity|]). unfold getAccount in *. rewrite Hacc.
  split; [apply JsMapFacts.get_set_eq|].
  split; [intros id' Hne; by apply JsMapFacts.get_set_ne|].
  split; [|exact Hrest].
  apply JsMapFacts.keys_set_present. by rewrite Hget.
Qed.

(** C4.  [updateAccountBalance] throws if and only if the store holds no
    account under the id; the error is then the not-found error for that
    id, and the store after the failing call is the store before it. *)
Theorem updateAccountBalance_notFound (s : MemStorage) (id : Z) (b : Qc) :
  ((∃ e, (updateAccountBalance s id b).1 = inl e) ↔ getAccount s id = None) ∧
  (∀ e, (updateAccountBalance s id b).1 = inl e →
        e = AccountNotFound id ∧ (updateAccountBalance s id b).2 = s).
Proof.
  unfold getAccount, updateAccountBalance.
  destruct (JsMap.get id (accounts s)) as [account|]; simpl.
  - split; [split; [intros [e [=]] | done] | intros e [=]].
  - split; [split; [done | by eexists] | by intros e [= <-]].
Qed.

Lemma updateAccountBalance_notFound_witness :
  getAccount Demo.store 99 = None ∧
  (updateAccountBalance Demo.store 99 (Q2Qc 100)).1
  = inl (AccountNotFound 99) ∧
  (updateAccountBalance Demo.store 99 (Q2Qc 100)).2 = Demo.store.
Proof.
  destruct (updateAccountBalance_notFound Demo.store 99 (Q2Qc 100))
    as [Hiff Hfail].
  split; [reflexivity|].
  destruct (proj2 Hiff eq_refl) as [e He].
  destruct (Hfail e He) as [-> Hstore].
  split; [exact He | exact Hstore].
Defined.

Lemma updateAccountBalance_frame_witness :
  ∃ account updated s',
    getAccount Demo.store 1 = Some account ∧
    updateAccountBalance Demo.store 1 (Q2Qc 100) = (inr updated, s') ∧
    Account.balance updated = Q2Qc 100 ∧
    Account.name updated = "Checking Account" ∧
    getAccount s' 2 = getAccount Demo.store 2.
Proof.
  eexists.
  destruct (updateAccountBalance_frame Demo.store 1 (Q2Qc 100) _ eq_refl)
    as (updated & s' & Hrun & Hbal & _ & _ & Hname & _ & _ & _ & Hother & _).
  exists updated, s'. split; [reflexivity|]. split; [exact Hrun|].
  split; [exact Hbal|]. split; [exact Hname|]. apply Hother. lia.
Defined.

(** ** Creating a transaction *)

Lemma createTransaction_accounts (s : MemStorage) (x : InsertTransaction.t) :
  accounts (createTransaction s x).2 = accounts s.
Proof. reflexivity. Qed.

Lemma createTransaction_stored (s : MemStorage) (x : InsertTransaction.t) :
  getTransaction (createTransaction s x).2
                 (Transaction.id (createTransaction s x).1)
  = Some (createTransaction s x).1.
Proof. apply JsMapFacts.get_set_eq. Qed.

(** C1.  When the account referenced by a validated transaction-creation
    request exists, the handler answers 201 with the created transaction,
    the transaction is stored, and the referenced account afterwards holds
    its previous balance plus the amount if the type is "income" and its
    previous balance minus the amount if the type is "expense"; its other
    fields are as before. *)
Theorem postTransaction_updates_balance (s : MemStorage)
    (validatedData : InsertTransaction.t) (account : Account.t) :
  getAccount s (InsertTransaction.accountId validatedData) = Some account →
  ∃ created updated s',
    postTransaction s validatedData = (mkResponse 201 (inl created), s') ∧
    created = (createTransaction s validatedData).1 ∧
    getTransaction s' (Transaction.id created) = Some created ∧
    getAccount s' (InsertTransaction.accountId validatedData) = Some updated ∧
    (InsertTransaction.type validatedData = "income" →
       Account.balance updated
       = (Account.balance account + InsertTransaction.amount validatedData)%Qc) ∧
    (InsertTransaction.type validatedData = "expense" →
       Account.balance updated
       = (Account.balance account - InsertTransaction.amount validatedData)%Qc) ∧
    updated = withBalance account (Account.balance updated).
Proof.
  intros Hget. unfold postTransaction.
  destruct (createTransaction s validatedData) as [created s1] eqn:Hcreate.
  assert (Hacc : accounts s1 = accounts s).
  { by rewrite <- (createTransaction_accounts s validatedData), Hcreate. }
  assert (Hget1 : getAccount s1 (InsertTransaction.accountId validatedData)
                  = Some account).
  { unfold getAccount in *. by rewrite Hacc. }
  rewrite Hget1.
  set (newBalance := if decide (InsertTransaction.type validatedData = "income")
                     then _ else _).
  destruct (updateAccountBalance_present s1 _ newBalance account Hget1)
    as (s2 & Hrun & Hacc2 & _ & _ & Htx & _).
  rewrite Hrun. exists created, (withBalance account newBalance), s2.
  split; [done|]. split; [done|]. split.
  { unfold getTransaction. rewrite Htx.
    pose proof (createTransaction_stored s validatedData) as Hs.
    by rewrite Hcreate in Hs. }
  split. { unfold getAccount. rewrite Hacc2. apply JsMapFacts.get_set_eq. }
  cbn [withBalance Account.balance]. subst newBalance.
  split; [|split].
  - intros ->. by rewrite decide_True.
  - intros ->. by rewrite decide_False.
  - reflexivity.
Qed.

Lemma postTransaction_updates_balance_witness :
  ∃ created updated s',
    postTransaction Demo.store
      (Demo.tx 1 (Some 2) (Q2Qc 30) "Lunch" 16 "expense" "Cash")
    = (mkResponse 201 (inl created), s') ∧
    getAccount s' 1 = Some updated ∧
    Account.balance updated = (Q2Qc 5000 - Q2Qc 30)%Qc.
Proof.
  destruct (postTransaction_updates_balance Demo.store
              (Demo.tx 1 (Some 2) (Q2Qc 30) "Lunch" 16 "expense" "Cash")
              _ eq_refl)
    as (created & updated & s' & Hrun & _ & _ & Hacc & _ & Hexp & _).
  exists created, updated, s'.
  split; [exact Hrun|]. split; [exact Hacc|]. apply Hexp. reflexivity.
Defined.

(** C10.  When no account exists under the [accountId] of a validated
    transaction-creation request, the handler still stores the transaction
    and answers 201 with it: no error is raised, and the accounts (and
    every entity other than the new transaction) are as before. *)
Theorem postTransaction_missing_account (s : MemStorage)
    (validatedData : InsertTransaction.t) :
  getAccount s (InsertTransaction.accountId validatedData) = None →
  ∃ created s',
    postTransaction s validatedData = (mkResponse 201 (inl created), s') ∧
    created = (createTransaction s validatedData).1 ∧
    getTransaction s' (Transaction.id created) = Some created ∧
    accounts s' = accounts s ∧
    users s' = users s ∧ categories s' = categories s ∧
    budgets s' = budgets s.
Proof.
  intros Hget. unfold postTransaction.
  destruct (createTransaction s validatedData) as [created s1] eqn:Hcreate.
  pose proof (createTransaction_stored s validatedData) as Hstored.
  rewrite Hcreate in Hstored. simpl in Hstored.
  assert (Hs1 : s1 = (createTransaction s validatedData).2)
    by by rewrite Hcreate.
  assert (Hget1 : getAccount s1 (InsertTransaction.accountId validatedData)
                  = None).
  { unfold getAccount in *. by rewrite Hs1. }
  rewrite Hget1. exists created, s1.
  split; [done|]. split; [done|]. split; [done|].
  rewrite Hs1. done.
Qed.

Lemma postTransaction_missing_account_witness :
  ∃ created s',
    postTransaction Demo.store
      (Demo.tx 99 (Some 2) (Q2Qc 30) "Lunch" 16 "expense" "Cash")
    = (mkResponse 201 (inl created), s') ∧
    accounts s' = accounts Demo.store.
Proof.
  destruct (postTransaction_missing_account Demo.store
              (Demo.tx 99 (Some 2) (Q2Qc 30) "Lunch" 16 "expense" "Cash")
              eq_refl)
    as (created & s' & Hrun & _ & _ & Hacc & _).
  exists created, s'. split; [exact Hrun | exact Hacc].
Defined.

(** ** The store invariant *)

Lemma wfMap_empty {T} (idOf : T → Z) : wfMap idOf 1 JsMap.empty.
Proof.
  split; [lia|]. split; [apply NoDup_nil_2 | apply Forall_nil_2].
Qed.

Lemma wfMap_get {T} (idOf : T → Z) (counter : Z) (m : JsMap.t T) (k : Z)
    (v : T) :
  wfMap idOf counter m → JsMap.get k m = Some v →
  idOf v = k ∧ 1 ≤ k < counter.
Proof.
  intros (_ & _ & Hall) Hget%JsMapFacts.get_Some_elem.
  rewrite Forall_forall in Hall. apply (Hall _ Hget).
Qed.

Lemma wfMap_counter_fresh {T} (idOf : T → Z) (counter : Z) (m : JsMap.t T) :
  wfMap idOf counter m → JsMap.get counter m = None.
Proof.
  intros Hwf. destruct (JsMap.get counter m) as [v|] eqn:Hget; [|done].
  destruct (wfMap_get _ _ _ _ _ Hwf Hget). lia.
Qed.

(** What [create] does to a map: a record with the counter as its id is
    set under the counter, and the counter moves on. *)
Lemma wfMap_set_new {T} (idOf : T → Z) (counter : Z) (m : JsMap.t T) (v : T) :
  wfMap idOf counter m → idOf v = counter →
  wfMap idOf (counter + 1) (JsMap.set counter v m).
Proof.
  intros Hwf Hid. pose proof (wfMap_counter_fresh _ _ _ Hwf) as Hfresh.
  destruct Hwf as (Hc & Hnd & Hall).
  rewrite JsMapFacts.set_absent by done.
  split; [lia|]. split.
  - unfold JsMap.keys. rewrite fmap_app. apply NoDup_app.
    split; [done|]. split; [|apply NoDup_singleton].
    intros k Hk Hk'. apply list_elem_of_singleton in Hk'. subst k.
    by apply JsMapFacts.get_None in Hfresh.
  - apply Forall_app. split.
    + eapply Forall_impl; [exact Hall|]. simpl. intros [k w]. simpl. lia.
    + apply Forall_singleton. simpl. lia.
Qed.

Lemma Forall_set {T} (P : Z * T → Prop) (k : Z) (v : T) (m : JsMap.t T) :
  Forall P m → P (k, v) → Forall P (JsMap.set k v m).
Proof.
  intros Hall HP. induction Hall as [|[k' v'] m Hkv Hall IH]; simpl.
  - by apply Forall_singleton.
  - destruct (decide (k' = k)); apply Forall_cons; auto.
Qed.

(** What [updateAccountBalance] does to a map: a present key gets a record
    with the same id. *)
Lemma wfMap_set_present {T} (idOf : T → Z) (counter : Z) (m : JsMap.t T)
    (k : Z) (v0 v : T) :
  wfMap idOf counter m → JsMap.get k m = Some v0 → idOf v = idOf v0 →
  wfMap idOf counter (JsMap.set k v m).
Proof.
  intros Hwf Hget Hid. destruct (wfMap_get _ _ _ _ _ Hwf Hget) as [Hk Hrange].
  destruct Hwf as (Hc & Hnd & Hall).
  split; [done|]. split.
  - rewrite JsMapFacts.keys_set_present; [done | by rewrite Hget].
  - apply Forall_set; [done|]. simpl. split; [congruence | done].
Qed.

Lemma wfStore_new : wfStore newMemStorage.
Proof.
  unfold wfStore. simpl. repeat split; try lia;
    first [apply NoDup_nil_2 | apply Forall_nil_2].
Qed.

(** Every reachable store satisfies the invariant. *)
Lemma reachable_wfStore (s : MemStorage) : reachable s → wfStore s.
Proof.
  induction 1 as [|now s x _ IH|s x _ IH|s id balance _ IH|s x _ IH
                  |s x _ IH|s x _ IH].
  - apply wfStore_new.
  - destruct IH as (Hu & Ha & Hc & Ht & Hb).
    split; [|done]. by apply wfMap_set_new.
  - destruct IH as (Hu & Ha & Hc & Ht & Hb).
    split; [done|]. split; [|done]. by apply wfMap_set_new.
  - pose proof IH as (Hu & Ha & Hc & Ht & Hb). unfold updateAccountBalance.
    destruct (JsMap.get id (accounts s)) as [account|] eqn:Hget; [|done].
    split; [done|]. split; [|done].
    by eapply wfMap_set_present.
  - destruct IH as (Hu & Ha & Hc & Ht & Hb).
    split; [done|]. split; [done|]. split; [|done]. by apply wfMap_set_new.
  - destruct IH as (Hu & Ha & Hc & Ht & Hb).
    split; [done|]. split; [done|]. split; [done|]. split; [|done].
    by apply wfMap_set_new.
  - destruct IH as (Hu & Ha & Hc & Ht & Hb).
    split; [done|]. split; [done|]. split; [done|]. split; [done|].
    by apply wfMap_set_new.
Qed.

(** In a well-formed map the records carry distinct ids. *)
Lemma wfMap_NoDup_ids {T} (idOf : T → Z) (counter : Z) (m : JsMap.t T) :
  wfMap idOf counter m → NoDup (idOf <$> JsMap.values m).
Proof.
  intros (_ & Hnd & Hall).
  assert (Heq : idOf <$> JsMap.values m = JsMap.keys m).
  { unfold JsMap.values, JsMap.keys. clear Hnd.
    induction Hall as [|[k v] m [Hk _] _ IH]; csimpl; [done|].
    simpl in Hk. by rewrite Hk, IH. }
  by rewrite Heq.
Qed.

(** The keys of a map after a [create]. *)
Lemma keys_set_new {T} (idOf : T → Z) (counter : Z) (m : JsMap.t T) (v : T) :
  wfMap idOf counter m → JsMap.keys m = seqZ 1 (counter - 1) →
  JsMap.keys (JsMap.set counter v m) = seqZ 1 (counter + 1 - 1).
Proof.
  intros Hwf Hkeys. pose proof (wfMap_counter_fresh _ _ _ Hwf) as Hfresh.
  destruct Hwf as (Hc & _). rewrite JsMapFacts.set_absent by done.
  unfold JsMap.keys in *. rewrite fmap_app, Hkeys.
  replace (counter + 1 - 1) with ((counter - 1) + 1) by lia.
  rewrite seqZ_app by lia. rewrite (seqZ_cons _ 1) by lia.
  rewrite (seqZ_nil _ (Z.pred 1)) by lia.
  csimpl. do 2 f_equal. lia.
Qed.

(** In every reachable store, whatever the interleaving of the calls, the
    ids in use for a kind are 1, 2, ..., in the order of creation. *)
Lemma reachable_keysInOrder (s : MemStorage) : reachable s → keysInOrder s.
Proof.
  induction 1 as [|now s x Hs IH|s x Hs IH|s id balance Hs IH|s x Hs IH
                  |s x Hs IH|s x Hs IH];
    [by repeat split|..];
    pose proof (reachable_wfStore s Hs) as (Wu & Wa & Wc & Wt & Wb);
    destruct IH as (Ku & Ka & Kc & Kt & Kb).
  - split; [|done]. by eapply keys_set_new.
  - split; [done|]. split; [|done]. by eapply keys_set_new.
  - unfold updateAccountBalance.
    destruct (JsMap.get id (accounts s)) as [account|] eqn:Hget;
      [|by repeat split].
    split; [done|]. split; [|done]. cbn [accounts accountIdCounter snd].
    rewrite JsMapFacts.keys_set_present; [done | by rewrite Hget].
  - split; [done|]. split; [done|]. split; [|done]. by eapply keys_set_new.
  - split; [done|]. split; [done|]. split; [done|]. split; [|done].
    by eapply keys_set_new.
  - split; [done|]. split; [done|]. split; [done|]. split; [done|].
    by eapply keys_set_new.
Qed.

(** The example stores are reachable. *)
Lemma reachable_demo_store : reachable Demo.store.
Proof.
  unfold Demo.store. cbv zeta.
  do 5 apply reach_createTransaction. do 4 apply reach_createBudget.
  do 5 apply reach_createCategory. do 2 apply reach_createAccount.
  apply reach_createUser, reach_new.
Defined.

Lemma reachable_demo_zeroStore : reachable Demo.zeroStore.
Proof.
  unfold Demo.zeroStore. cbv zeta.
  apply reach_createTransaction, reach_createBudget, reach_createUser,
    reach_new.
Defined.

(** ** Id assignment *)

Section CreateAll.

Context {I T : Type}.
Variable create : MemStorage → I → T * MemStorage.
Variable counter : MemStorage → Z.
Variable idOf : T → Z.
Variable lookup : MemStorage → Z → option T.

Hypothesis create_id : ∀ s x, idOf (create s x).1 = counter s.
Hypothesis create_counter :
  ∀ s x, counter (create s x).2 = counter s + 1.
Hypothesis create_lookup :
  ∀ s x, lookup (create s x).2 (counter s) = Some (create s x).1.
Hypothesis create_other :
  ∀ s x k, k ≠ counter s → lookup (create s x).2 k = lookup s k.

Lemma createAll_cons (s : MemStorage) (x : I) (xs : list I) :
  createAll create s (x :: xs)
  = ((create s x).1 :: (createAll create (create s x).2 xs).1,
     (createAll create (create s x).2 xs).2).
Proof.
  simpl. destruct (create s x) as [t s1]. simpl.
  by destruct (createAll create s1 xs).
Qed.

Lemma createAll_length (xs : list I) (s : MemStorage) :
  length (createAll create s xs).1 = length xs.
Proof.
  revert s. induction xs as [|x xs IH]; intros s; [done|].
  rewrite createAll_cons. simpl. by rewrite IH.
Qed.

Lemma createAll_ids (xs : list I) (s : MemStorage) :
  idOf <$> (createAll create s xs).1
  = seqZ (counter s) (Z.of_nat (length xs)).
Proof.
  revert s. induction xs as [|x xs IH]; intros s; [done|].
  rewrite createAll_cons. cbn [fst length]. rewrite fmap_cons.
  rewrite seqZ_cons by lia. rewrite IH, create_id, create_counter.
  do 2 f_equal; lia.
Qed.

Lemma createAll_lookup_old (xs : list I) (s : MemStorage) (k : Z) :
  k < counter s → lookup (createAll create s xs).2 k = lookup s k.
Proof.
  revert s. induction xs as [|x xs IH]; intros s Hk; [done|].
  rewrite createAll_cons. cbn [snd]. rewrite IH.
  - apply create_other. lia.
  - rewrite create_counter. lia.
Qed.

Lemma createAll_lookup_new (xs : list I) (s : MemStorage) :
  Forall (λ t, lookup (createAll create s xs).2 (idOf t) = Some t)
         (createAll create s xs).1.
Proof.
  revert s. induction xs as [|x xs IH]; intros s.
  { apply Forall_nil_2. }
  rewrite createAll_cons. cbn [fst snd]. apply Forall_cons. split.
  - rewrite createAll_lookup_old.
    + rewrite create_id. apply create_lookup.
    + rewrite create_id, create_counter. lia.
  - apply IH.
Qed.

Lemma createAll_in_order (xs : list I) (s : MemStorage) :
  counter s = 1 →
  idsAssignedInOrder idOf (lookup (createAll create s xs).2)
                     (createAll create s xs).1.
Proof.
  intros Hfresh. unfold idsAssignedInOrder.
  pose proof (createAll_ids xs s) as Hids.
  rewrite Hfresh, <- (createAll_length xs s) in Hids.
  split; [exact Hids|]. split; [|split].
  - rewrite Hids. apply NoDup_seqZ.
  - apply Forall_forall. intros t Ht.
    assert (Hin : idOf t ∈ idOf <$> (createAll create s xs).1)
      by by apply list_elem_of_fmap_2.
    rewrite Hids in Hin. apply elem_of_seqZ in Hin. lia.
  - apply createAll_lookup_new.
Qed.

End CreateAll.

(** C5.  For each of the five entity kinds and every sequence of insert
    shapes, calling the kind's [create] on a fresh store once per shape
    creates as many records as there are calls, with the ids 1, 2, ..., N
    in call order; these ids are distinct and positive, and after the last
    call each id still names the record it was assigned to.  Moreover, in
    every store reachable by any interleaving of calls, the ids in use for
    a kind are 1, 2, ..., in the order of creation. *)
Theorem create_ids_sequential :
  (∀ xs : list (Date * InsertUser.t),
     let r := createAll (λ s x, createUser x.1 s x.2) newMemStorage xs in
     length r.1 = length xs ∧ idsAssignedInOrder User.id (getUser r.2) r.1) ∧
  (∀ xs : list InsertAccount.t,
     let r := createAll createAccount newMemStorage xs in
     length r.1 = length xs ∧
     idsAssignedInOrder Account.id (getAccount r.2) r.1) ∧
  (∀ xs : list InsertCategory.t,
     let r := createAll createCategory newMemStorage xs in
     length r.1 = length xs ∧
     idsAssignedInOrder Category.id (getCategory r.2) r.1) ∧
  (∀ xs : list InsertTransaction.t,
     let r := createAll createTransaction newMemStorage xs in
     length r.1 = length xs ∧
     idsAssignedInOrder Transaction.id (getTransaction r.2) r.1) ∧
  (∀ xs : list InsertBudget.t,
     let r := createAll createBudget newMemStorage xs in
     length r.1 = length xs ∧
     idsAssignedInOrder Budget.id (getBudget r.2) r.1) ∧
  (∀ s, reachable s → keysInOrder s).
Proof.
  split; [|split; [|split; [|split; [|split]]]];
    [..|exact reachable_keysInOrder]; intros xs r; subst r;
    (split; [apply createAll_length|]).
  - apply (createAll_in_order _ userIdCounter); try done.
    + intros s x. apply JsMapFacts.get_set_eq.
    + intros s x k Hk. by apply JsMapFacts.get_set_ne.
  - apply (createAll_in_order _ accountIdCounter); try done.
    + intros s x. apply JsMapFacts.get_set_eq.
    + intros s x k Hk. by apply JsMapFacts.get_set_ne.
  - apply (createAll_in_order _ categoryIdCounter); try done.
    + intros s x. apply JsMapFacts.get_set_eq.
    + intros s x k Hk. by apply JsMapFacts.get_set_ne.
  - apply (createAll_in_order _ transactionIdCounter); try done.
    + intros s x. apply JsMapFacts.get_set_eq.
    + intros s x k Hk. by apply JsMapFacts.get_set_ne.
  - apply (createAll_in_order _ budgetIdCounter); try done.
    + intros s x. apply JsMapFacts.get_set_eq.
    + intros s x k Hk. by apply JsMapFacts.get_set_ne.
Qed.

Lemma create_ids_sequential_witness :
  Account.id <$> (createAll createAccount newMemStorage
                    [InsertAccount.mk 1 "Checking" "checking" (Q2Qc 5000) false;
                     InsertAccount.mk 1 "Savings" "savings" (Q2Qc 3254) false;
                     InsertAccount.mk 2 "Cash" "cash" (Q2Qc 10) false]).1
  = [1; 2; 3] ∧
  JsMap.keys (transactions Demo.store) = [1; 2; 3; 4; 5].
Proof.
  destruct create_ids_sequential as (_ & Haccounts & _ & _ & _ & Hreach).
  split.
  - destruct (Haccounts
                [InsertAccount.mk 1 "Checking" "checking" (Q2Qc 5000) false;
                 InsertAccount.mk 1 "Savings" "savings" (Q2Qc 3254) false;
                 InsertAccount.mk 2 "Cash" "cash" (Q2Qc 10) false])
      as (_ & Hids & _).
    exact Hids.
  - destruct (Hreach Demo.store reachable_demo_store)
      as (_ & _ & _ & Htx & _).
    exact Htx.
Defined.

(** ** Sorting *)

Lemma sortInsert_Permutation {A} (cmp : A → A → Z) (x : A) (l : list A) :
  sortInsert cmp x l ≡ₚ x :: l.
Proof.
  induction l as [|y l IH]; simpl; [done|].
  destruct (decide (0 < cmp x y)); [|done].
  rewrite IH. apply perm_swap.
Qed.

Lemma sort_Permutation {A} (cmp : A → A → Z) (l : list A) :
  sort cmp l ≡ₚ l.
Proof.
  unfold sort. induction l as [|x l IH]; simpl; [done|].
  by rewrite sortInsert_Permutation, IH.
Qed.

Lemma elem_of_sort {A} (cmp : A → A → Z) (l : list A) (x : A) :
  x ∈ sort cmp l ↔ x ∈ l.
Proof. by rewrite sort_Permutation. Qed.

Lemma length_sort {A} (cmp : A → A → Z) (l : list A) :
  length (sort cmp l) = length l.
Proof. by rewrite sort_Permutation. Qed.

Lemma sortInsert_byDateDesc (x : Transaction.t) (l : list Transaction.t) :
  StronglySorted dateDesc l →
  StronglySorted dateDesc (sortInsert byDateDesc x l).
Proof.
  induction 1 as [|y l Hl IH Hy]; simpl.
  - repeat constructor.
  - unfold byDateDesc at 1. destruct (decide (0 < _)) as [Hlt|Hge].
    + constructor; [done|].
      rewrite sortInsert_Permutation. constructor; [|done].
      unfold dateDesc. lia.
    + constructor; [by constructor|].
      constructor; [unfold dateDesc; lia|].
      eapply Forall_impl; [exact Hy|]. unfold dateDesc. intros z Hz. lia.
Qed.

Lemma sort_byDateDesc (l : list Transaction.t) :
  StronglySorted dateDesc (sort byDateDesc l).
Proof.
  unfold sort. induction l as [|x l IH]; simpl; [constructor|].
  by apply sortInsert_byDateDesc.
Qed.

(** The sort is stable: on a list already in descending order it changes
    nothing, so equally dated transactions keep their insertion order. *)
Lemma sort_byDateDesc_sorted (l : list Transaction.t) :
  StronglySorted dateDesc l → sort byDateDesc l = l.
Proof.
  unfold sort. induction 1 as [|x l Hl IH Hx]; simpl; [done|].
  rewrite IH. destruct l as [|y l]; simpl; [done|].
  rewrite decide_False; [done|].
  apply Forall_cons in Hx as [Hxy _]. unfold dateDesc, byDateDesc in *. lia.
Qed.

(** ** Transaction queries *)

Lemma elem_of_getTransactionsByDateRange (s : MemStorage) (userId : Z)
    (startDate endDate : Date) (t : Transaction.t) :
  t ∈ getTransactionsByDateRange s userId startDate endDate ↔
  t ∈ JsMap.values (transactions s) ∧ Transaction.userId t = userId ∧
  startDate ≤ Transaction.date t ≤ endDate.
Proof.
  unfold getTransactionsByDateRange.
  rewrite elem_of_sort, list_elem_of_filter. tauto.
Qed.

Lemma getTransactionsByDateRange_sorted (s : MemStorage) (userId : Z)
    (startDate endDate : Date) :
  StronglySorted dateDesc
    (getTransactionsByDateRange s userId startDate endDate).
Proof. apply sort_byDateDesc. Qed.

(** C6.  [getTransactionsByDateRange] uses inclusive bounds on both ends:
    for every user and every [startDate] and [endDate], every returned
    transaction is dated [d] with [startDate <= d <= endDate]; a stored
    transaction of the user is returned exactly when it is dated so; and in
    a range ([startDate <= endDate]) a transaction of the user dated
    exactly [startDate] and one dated exactly [endDate] are both
    returned. *)
Theorem getTransactionsByDateRange_inclusive (s : MemStorage) (userId : Z)
    (startDate endDate : Date) :
  (∀ t, t ∈ getTransactionsByDateRange s userId startDate endDate →
        startDate ≤ Transaction.date t ≤ endDate) ∧
  (∀ t, t ∈ JsMap.values (transactions s) →
        Transaction.userId t = userId →
        (t ∈ getTransactionsByDateRange s userId startDate endDate ↔
         startDate ≤ Transaction.date t ≤ endDate)) ∧
  (startDate ≤ endDate →
   ∀ t, t ∈ JsMap.values (transactions s) →
        Transaction.userId t = userId →
        Transaction.date t = startDate ∨ Transaction.date t = endDate →
        t ∈ getTransactionsByDateRange s userId startDate endDate).
Proof.
  split; [|split].
  - intros t Hin.
    by apply elem_of_getTransactionsByDateRange in Hin as (_ & _ & ?).
  - intros t Hin Hu. rewrite elem_of_getTransactionsByDateRange. tauto.
  - intros Hle t Hin Hu Hd. apply elem_of_getTransactionsByDateRange.
    split; [done|]. split; [done|]. lia.
Qed.

Lemma getTransactionsByDateRange_inclusive_witness :
  ∃ first last,
    getTransaction Demo.store 5 = Some first ∧
    getTransaction Demo.store 1 = Some last ∧
    Transaction.date first = Utc.newDate 2024 2 10 ∧
    Transaction.date last = Utc.newDate 2024 2 15 ∧
    first ∈ getTransactionsByDateRange Demo.store 1
              (Utc.newDate 2024 2 10) (Utc.newDate 2024 2 15) ∧
    last ∈ getTransactionsByDateRange Demo.store 1
             (Utc.newDate 2024 2 10) (Utc.newDate 2024 2 15).
Proof.
  destruct (getTransactionsByDateRange_inclusive Demo.store 1
              (Utc.newDate 2024 2 10) (Utc.newDate 2024 2 15))
    as (_ & _ & Hbounds).
  assert (Hle : Utc.newDate 2024 2 10 ≤ Utc.newDate 2024 2 15)
    by (vm_compute; discriminate).
  eexists _, _. split; [reflexivity|]. split; [reflexivity|].
  split; [reflexivity|]. split; [reflexivity|]. split.
  - apply (Hbounds Hle).
    + vm_compute. do 4 apply list_elem_of_further. apply list_elem_of_here.
    + reflexivity.
    + left. reflexivity.
  - apply (Hbounds Hle).
    + vm_compute. apply list_elem_of_here.
    + reflexivity.
    + right. reflexivity.
Defined.

(** With [startDate] later than [endDate] no date lies within the bounds,
    and the result is empty. *)
Lemma getTransactionsByDateRange_inverted (s : MemStorage) (userId : Z)
    (startDate endDate : Date) :
  endDate < startDate →
  getTransactionsByDateRange s userId startDate endDate = [].
Proof.
  intros Hlt. apply elem_of_nil_inv. intros t Hin.
  apply elem_of_getTransactionsByDateRange in Hin as (_ & _ & ?). lia.
Qed.

(** C7, as the code has it.  [getTransactionsByUserId] returns exactly the
    stored transactions of the user (each as often as it is stored), in
    descending order of date; and for every limit [n >= 0],
    [getRecentTransactions] returns the first [min n length] elements of
    that list. *)
Theorem getRecentTransactions_prefix (s : MemStorage) (userId : Z) :
  getTransactionsByUserId s userId
    ≡ₚ filter (λ t, Transaction.userId t = userId)
              (JsMap.values (transactions s)) ∧
  StronglySorted dateDesc (getTransactionsByUserId s userId) ∧
  (∀ n : Z, 0 ≤ n →
     getRecentTransactions s userId n
     = take (Z.to_nat
               (Z.min n (Z.of_nat (length (getTransactionsByUserId s userId)))))
            (getTransactionsByUserId s userId)).
Proof.
  split; [apply sort_Permutation|]. split; [apply sort_byDateDesc|].
  intros n Hn. unfold getRecentTransactions, getTransactionsByUserId, slice0.
  by rewrite decide_False by lia.
Qed.

Lemma getRecentTransactions_prefix_witness :
  Transaction.description <$> getRecentTransactions Demo.store 1 2
  = ["Whole Foods Market"; "Rent Payment"] ∧
  getRecentTransactions Demo.store 1 2
  = take 2 (getTransactionsByUserId Demo.store 1).
Proof.
  split; [reflexivity|].
  destruct (getRecentTransactions_prefix Demo.store 1) as (_ & _ & Hrecent).
  rewrite (Hrecent 2); [reflexivity | lia].
Defined.

(** What [slice(0, limit)] does with a negative limit: it drops the last
    [-limit] elements. *)
Lemma getRecentTransactions_negative (s : MemStorage) (userId : Z) (n : Z) :
  n < 0 →
  getRecentTransactions s userId n
  = take (length (getTransactionsByUserId s userId) - Z.to_nat (- n))
         (getTransactionsByUserId s userId).
Proof.
  intros Hn. unfold getRecentTransactions, getTransactionsByUserId, slice0.
  rewrite decide_True by lia. f_equal. lia.
Qed.

(** C7, as stated, fails for a negative limit: with limit -1 the demo
    user's five transactions yield the four most recent ones, not the
    first [min (-1) 5] (that is, no) elements. *)
Lemma getRecentTransactions_prefix_counterexample :
  length (getTransactionsByUserId Demo.store 1) = 5%nat ∧
  Transaction.description <$> getRecentTransactions Demo.store 1 (-1)
  = ["Whole Foods Market"; "Rent Payment"; "Paycheck"; "Shell Gas Station"] ∧
  take (Z.to_nat (Z.min (-1) 5)) (getTransactionsByUserId Demo.store 1) = [] ∧
  getRecentTransactions Demo.store 1 (-1)
  ≠ take (Z.to_nat
            (Z.min (-1)
               (Z.of_nat (length (getTransactionsByUserId Demo.store 1)))))
         (getTransactionsByUserId Demo.store 1).
Proof.
  split; [reflexivity|]. split; [reflexivity|]. split; [reflexivity|].
  vm_compute. discriminate.
Qed.

(** ** Transaction feed *)

(** C9, as the code has it.  The time frames "7days", "30days" and "90days"
    start 7, 30 and 90 days before now, "year" starts on the first of
    January of the current year, and every other value, "year-to-date"
    among them, as well as an absent one, yields the 7-day window; the feed
    without a category filter is the date-range fetch from that start to
    now. *)
Theorem timeFrameStart_cases (subDays : Date → Z → Date)
    (newDate : Z → Z → Z → Date) (getFullYear : Date → Z)
    (toNumber : string → option Z) (s : MemStorage) (userId : Z)
    (now : Date) :
  timeFrameStart subDays newDate getFullYear (Some "7days") now
  = subDays now 7 ∧
  timeFrameStart subDays newDate getFullYear (Some "30days") now
  = subDays now 30 ∧
  timeFrameStart subDays newDate getFullYear (Some "90days") now
  = subDays now 90 ∧
  timeFrameStart subDays newDate getFullYear (Some "year") now
  = newDate (getFullYear now) 0 1 ∧
  timeFrameStart subDays newDate getFullYear (Some "year-to-date") now
  = subDays now 7 ∧
  timeFrameStart subDays newDate getFullYear None now = subDays now 7 ∧
  (∀ tf : string,
     tf ∉ ["7days"; "30days"; "90days"; "year"] →
     timeFrameStart subDays newDate getFullYear (Some tf) now
     = subDays now 7) ∧
  (∀ timeFrame : option string,
     getTransactionsFeed subDays newDate getFullYear toNumber s userId None
                         timeFrame now
     = getTransactionsByDateRange s userId
         (timeFrameStart subDays newDate getFullYear timeFrame now) now).
Proof.
  repeat split.
  intros tf Htf. rewrite !not_elem_of_cons in Htf.
  destruct Htf as (H7 & H30 & H90 & Hyear & _).
  unfold timeFrameStart. by rewrite !decide_False.
Qed.

Lemma timeFrameStart_cases_witness :
  timeFrameStart Utc.subDays Utc.newDate Utc.getFullYear (Some "month")
                 Demo.now
  = 1709901296000   (* 2024-03-08T12:34:56Z *).
Proof.
  destruct (timeFrameStart_cases Utc.subDays Utc.newDate Utc.getFullYear
              Utc.toNumber Demo.store 1 Demo.now)
    as (_ & _ & _ & _ & _ & _ & Hother & _).
  rewrite Hother; [reflexivity|].
  rewrite !not_elem_of_cons. repeat split; try discriminate.
  apply not_elem_of_nil.
Defined.

(** C9, as stated, fails on "year-to-date": on 2024-03-15 (UTC) that time
    frame starts the window on 2024-03-08, seven days back, and not on
    2024-01-01, where "year" starts it. *)
Lemma timeFrameStart_cases_counterexample :
  timeFrameStart Utc.subDays Utc.newDate Utc.getFullYear
                 (Some "year-to-date") Demo.now
  = 1709901296000 ∧
  Utc.newDate (Utc.getFullYear Demo.now) 0 1 = 1704067200000 ∧
  timeFrameStart Utc.subDays Utc.newDate Utc.getFullYear
                 (Some "year-to-date") Demo.now
  ≠ Utc.newDate (Utc.getFullYear Demo.now) 0 1.
Proof.
  split; [reflexivity|]. split; [reflexivity|]. vm_compute. discriminate.
Qed.

(** ** Sums of amounts *)

Lemma total_app (l1 l2 : list Qc) :
  total (l1 ++ l2) = (total l1 + total l2)%Qc.
Proof.
  unfold total. induction l1 as [|q l1 IH]; simpl; [ring|].
  rewrite IH. ring.
Qed.

Global Instance total_Permutation : Proper ((≡ₚ) ==> (=)) total.
Proof.
  unfold total. induction 1 as [|q l1 l2 _ IH|q1 q2 l|l1 l2 l3 _ IH1 _ IH2];
    simpl; [done | by rewrite IH | ring | congruence].
Qed.

(** Filtering commutes with the sort by date. *)
Lemma sortInsert_head (x : Transaction.t) (l : list Transaction.t) :
  Forall (λ z, Transaction.date z ≤ Transaction.date x) l →
  sortInsert byDateDesc x l = x :: l.
Proof.
  destruct 1 as [|z l Hz _]; [done|]. simpl.
  unfold byDateDesc. rewrite decide_False by lia. done.
Qed.

Lemma sortInsert_filter (P : Transaction.t → Prop) `{∀ t, Decision (P t)}
    (x : Transaction.t) (l : list Transaction.t) :
  StronglySorted dateDesc l →
  filter P (sortInsert byDateDesc x l)
  = if decide (P x) then sortInsert byDateDesc x (filter P l)
    else filter P l.
Proof.
  induction 1 as [|y l Hl IH Hy]; simpl.
  - rewrite filter_cons, filter_nil. by destruct (decide (P x)).
  - unfold byDateDesc at 1.
    destruct (decide (0 < Transaction.date y - Transaction.date x))
      as [Hlt|Hge].
    + rewrite !filter_cons, IH.
      destruct (decide (P y)) as [Py|Py], (decide (P x)) as [Px|Px];
        try done.
      simpl. unfold byDateDesc at 1. by rewrite decide_True by done.
    + rewrite (filter_cons _ x). destruct (decide (P x)) as [Px|Px]; [|done].
      rewrite sortInsert_head; [done|].
      apply Forall_forall. intros z [_ Hz]%list_elem_of_filter.
      apply elem_of_cons in Hz as [->|Hz]; [lia|].
      rewrite Forall_forall in Hy. specialize (Hy z Hz).
      unfold dateDesc in Hy. lia.
Qed.

Lemma sort_filter (P : Transaction.t → Prop) `{∀ t, Decision (P t)}
    (l : list Transaction.t) :
  filter P (sort byDateDesc l) = sort byDateDesc (filter P l).
Proof.
  induction l as [|x l IH]; [done|].
  change (sort byDateDesc (x :: l))
    with (sortInsert byDateDesc x (sort byDateDesc l)).
  rewrite sortInsert_filter by apply sort_byDateDesc.
  rewrite filter_cons, IH. by destruct (decide (P x)).
Qed.

(** ** Monthly summary *)

Lemma sumAmounts_fmap (toDouble : Qc → float) (l : list Transaction.t) :
  sumAmounts toDouble l
  = foldl PrimFloat.add 0%float ((λ t, toDouble (Transaction.amount t)) <$> l).
Proof.
  unfold sumAmounts. generalize 0%float.
  induction l as [|t l IH]; intros acc; csimpl; [done|]. apply IH.
Qed.

(** The income or expenses that the summary handler computes for a month
    is the month's value of that type. *)
Lemma sumAmounts_monthValue (toDouble : Qc → float) (s : MemStorage)
    (userId : Z) (type : string) (startDate endDate : Date) :
  sumAmounts toDouble
    (filter (λ t, Transaction.type t = type)
            (getTransactionsByDateRange s userId startDate endDate))
  = monthValue toDouble s userId type startDate endDate.
Proof.
  rewrite sumAmounts_fmap. unfold monthValue, getTransactionsByDateRange.
  rewrite sort_filter, list_filter_filter. do 3 f_equal.
  apply list_filter_iff. intros t. tauto.
Qed.

(** What the percent formula gives at a previous value of 0 when it is not
    guarded: a division by zero, that is, an infinity or NaN. *)
Example unguarded_percent_at_zero :
  ((500 - 0) / 0 * 100)%float = infinity ∧
  ((0 - 500) / 0 * 100)%float = neg_infinity ∧
  ((0 - 0) / 0 * 100)%float = nan.
Proof. repeat split. Qed.

(** C8.  In the summary the monthly income and expenses are the month's
    values of the types "income" and "expense" for the current month and
    the savings their difference, and likewise for the previous month; for
    each of income, expenses and savings the percent change is exactly 0
    (not an infinity, not NaN) when the previous month's value is 0, and
    [(current - previous) / previous * 100] when it is not.  All values
    and operations are those of IEEE doubles. *)
Theorem getSummary_percent_change (subMonths : Date → Z → Date)
    (startOfMonth endOfMonth : Date → Date) (toDouble : Qc → float)
    (s : MemStorage) (userId : Z) (now : Date) :
  let summary :=
    getSummary subMonths startOfMonth endOfMonth toDouble s userId now in
  let current ty :=
    monthValue toDouble s userId ty (startOfMonth now) (endOfMonth now) in
  let previous ty :=
    monthValue toDouble s userId ty (startOfMonth (subMonths now 1))
               (endOfMonth (subMonths now 1)) in
  let currentSavings := (current "income" - current "expense")%float in
  let previousSavings := (previous "income" - previous "expense")%float in
  monthlyIncome summary = current "income" ∧
  monthlyExpenses summary = current "expense" ∧
  monthlySavings summary = currentSavings ∧
  ((previous "income" =? 0)%float = true →
     incomeChange summary = 0%float) ∧
  ((previous "income" =? 0)%float = false →
     incomeChange summary
     = ((current "income" - previous "income") / previous "income"
        * 100)%float) ∧
  ((previous "expense" =? 0)%float = true →
     expensesChange summary = 0%float) ∧
  ((previous "expense" =? 0)%float = false →
     expensesChange summary
     = ((current "expense" - previous "expense") / previous "expense"
        * 100)%float) ∧
  ((previousSavings =? 0)%float = true → savingsChange summary = 0%float) ∧
  ((previousSavings =? 0)%float = false →
     savingsChange summary
     = ((currentSavings - previousSavings) / previousSavings * 100)%float).
Proof.
  intros summary current previous currentSavings previousSavings.
  subst summary currentSavings previousSavings current previous.
  unfold getSummary. cbn [monthlyIncome monthlyExpenses monthlySavings
    incomeChange expensesChange savingsChange].
  rewrite !sumAmounts_monthValue.
  repeat split; intros H; by rewrite H.
Qed.

Lemma getSummary_percent_change_witness :
  (* In March 2024 there is income, and the previous month has none. *)
  monthlyIncome (getSummary Utc.subMonths Utc.startOfMonth Utc.endOfMonth
                            Double.ofQc Demo.store 1 Demo.now)
  = 2620%float ∧
  monthValue Double.ofQc Demo.store 1 "income"
             (Utc.startOfMonth (Utc.subMonths Demo.now 1))
             (Utc.endOfMonth (Utc.subMonths Demo.now 1)) = 0%float ∧
  incomeChange (getSummary Utc.subMonths Utc.startOfMonth Utc.endOfMonth
                           Double.ofQc Demo.store 1 Demo.now) = 0%float ∧
  (* In April 2024 the previous month has expenses, and April has none. *)
  expensesChange (getSummary Utc.subMonths Utc.startOfMonth Utc.endOfMonth
                             Double.ofQc Demo.store 1 (Utc.newDate 2024 3 15))
  = (-100)%float.
Proof.
  split; [reflexivity|]. split; [reflexivity|].
  split.
  - destruct (getSummary_percent_change Utc.subMonths Utc.startOfMonth
                Utc.endOfMonth Double.ofQc Demo.store 1 Demo.now)
      as (_ & _ & _ & Hinc & _).
    apply Hinc. reflexivity.
  - destruct (getSummary_percent_change Utc.subMonths Utc.startOfMonth
                Utc.endOfMonth Double.ofQc Demo.store 1
                (Utc.newDate 2024 3 15))
      as (_ & _ & _ & _ & _ & _ & Hexp & _).
    rewrite Hexp; reflexivity.
Defined.

(** ** Budget progress *)

Lemma orZero_default (x : option Qc) : orZero x = default 0%Qc x.
Proof.
  destruct x as [q|]; simpl; [|done].
  by destruct (bool_decide_reflect (q = 0%Qc)).
Qed.

Lemma falsyId_false (x : option Z) :
  falsyId x = false ↔ ∃ c, x = Some c ∧ c ≠ 0.
Proof.
  destruct x as [c|]; simpl.
  - rewrite bool_decide_eq_false. split; [by exists c | by intros (? & [= <-] & ?)].
  - split; [done | by intros (? & ? & _)].
Qed.

(** One step of the group-by-sum, read at a nonzero category [c]: the
    amount is added to the group of the transaction's categoryId and to no
    other group. *)
Lemma addSpent_lookup (m : gmap Z Qc) (t : Transaction.t) (c : Z) :
  c ≠ 0 →
  default 0%Qc (addSpent m t !! c)
  = (default 0%Qc (m !! c)
     + total (Transaction.amount <$>
              filter (λ t, Transaction.categoryId t = Some c) [t]))%Qc.
Proof.
  intros Hc. unfold addSpent.
  destruct (falsyId (Transaction.categoryId t)) eqn:Hfalsy.
  - rewrite filter_cons_False, filter_nil.
    + unfold total. simpl. ring.
    + intros Ht. rewrite Ht in Hfalsy. simpl in Hfalsy.
      by apply bool_decide_eq_true in Hfalsy.
  - apply falsyId_false in Hfalsy as (c' & Hc' & Hne). rewrite Hc'. simpl.
    set (m1 := if falsyNum (m !! c') then <[c':=0%Qc]> m else m).
    assert (Hm1 : ∀ k, default 0%Qc (m1 !! k) = default 0%Qc (m !! k)).
    { intros k. subst m1. destruct (falsyNum (m !! c')) eqn:Hf; [|done].
      destruct (decide (c' = k)) as [->|Hk].
      - rewrite lookup_insert_eq. destruct (m !! k) as [q|]; simpl in *; [|done].
        by apply bool_decide_eq_true in Hf.
      - by rewrite lookup_insert_ne. }
    destruct (decide (c' = c)) as [->|Hcc].
    + rewrite lookup_insert_eq, filter_cons_True, filter_nil by done.
      simpl. rewrite Hm1. unfold total. simpl. ring.
    + rewrite lookup_insert_ne by done.
      rewrite filter_cons_False, filter_nil by congruence.
      rewrite Hm1. unfold total. simpl. ring.
Qed.

Lemma foldl_addSpent_lookup (l : list Transaction.t) (m : gmap Z Qc) (c : Z) :
  c ≠ 0 →
  default 0%Qc (foldl addSpent m l !! c)
  = (default 0%Qc (m !! c)
     + total (Transaction.amount <$>
              filter (λ t, Transaction.categoryId t = Some c) l))%Qc.
Proof.
  intros Hc. revert m. induction l as [|t l IH]; intros m.
  - rewrite filter_nil. unfold total. simpl. ring.
  - change (t :: l) with ([t] ++ l) at 2.
    rewrite filter_app, fmap_app, total_app. cbn [foldl].
    rewrite IH, (addSpent_lookup m t c Hc). ring.
Qed.

(** The group of category 0 is never written. *)
Lemma foldl_addSpent_zero (l : list Transaction.t) (m : gmap Z Qc) :
  foldl addSpent m l !! 0 = m !! 0.
Proof.
  revert m. induction l as [|t l IH]; intros m; [done|].
  cbn [foldl]. rewrite IH. unfold addSpent.
  destruct (falsyId (Transaction.categoryId t)) eqn:Hfalsy; [done|].
  apply falsyId_false in Hfalsy as (c' & Hc' & Hne). rewrite Hc'. simpl.
  rewrite lookup_insert_ne by done.
  destruct (falsyNum (m !! c')); [by rewrite lookup_insert_ne | done].
Qed.

Lemma foldl_addProgress_lookup (categorySpent : gmap Z Qc)
    (budgets : list Budget.t) (b : Budget.t) :
  NoDup (Budget.id <$> budgets) → b ∈ budgets →
  foldl (addProgress categorySpent) ∅ budgets !! Budget.id b
  = Some (orZero (categorySpent !! Budget.categoryId b)).
Proof.
  induction budgets as [|x budgets IH] using rev_ind.
  { intros _ Hb. by apply elem_of_nil in Hb. }
  rewrite fmap_app, NoDup_app, foldl_snoc. intros (Hnd & Hdisj & _) Hb.
  unfold addProgress at 1.
  apply elem_of_app in Hb as [Hb|Hb].
  - rewrite lookup_insert_ne; [by apply IH|].
    intros Heq. apply (Hdisj (Budget.id b)).
    + by apply list_elem_of_fmap_2.
    + rewrite <- Heq. simpl. apply list_elem_of_here.
  - apply list_elem_of_singleton in Hb as ->. by rewrite lookup_insert_eq.
Qed.

Lemma foldl_addProgress_dom (categorySpent : gmap Z Qc)
    (budgets : list Budget.t) (k : Z) :
  is_Some (foldl (addProgress categorySpent) ∅ budgets !! k) ↔
  ∃ b, b ∈ budgets ∧ Budget.id b = k.
Proof.
  induction budgets as [|x budgets IH] using rev_ind.
  { simpl. rewrite lookup_empty. split; [by intros [? ?]|].
    intros (b & Hb & _). by apply elem_of_nil in Hb. }
  rewrite foldl_snoc. unfold addProgress at 1.
  destruct (decide (Budget.id x = k)) as [<-|Hne].
  - rewrite lookup_insert_eq. split; [|by eexists].
    intros _. exists x. split; [|done].
    apply elem_of_app. right. apply list_elem_of_here.
  - rewrite lookup_insert_ne by done. rewrite IH. split.
    + intros (b & Hb & Hk). exists b. split; [|done].
      apply elem_of_app. by left.
    + intros (b & Hb & Hk). exists b. split; [|done].
      apply elem_of_app in Hb as [Hb|Hb]; [done|].
      apply list_elem_of_singleton in Hb. congruence.
Qed.

(** What the handler's group-by-sum holds for a nonzero category: the sum
    over the user's stored expenses of the month in that category. *)
Lemma categorySpent_spentInCategory (s : MemStorage) (userId : Z)
    (monthStart monthEnd : Date) (c : Z) :
  c ≠ 0 →
  orZero (foldl addSpent ∅
            (filter (λ t, Transaction.type t = "expense")
                    (getTransactionsByDateRange s userId monthStart monthEnd))
          !! c)
  = spentInCategory s userId monthStart monthEnd c.
Proof.
  intros Hc. rewrite orZero_default, foldl_addSpent_lookup by done.
  rewrite lookup_empty. simpl. rewrite Qcplus_0_l.
  unfold spentInCategory, getTransactionsByDateRange.
  rewrite sort_Permutation, !list_filter_filter. do 2 f_equal.
  apply list_filter_iff. intros t. tauto.
Qed.

Lemma getBudgetsByUserId_NoDup (s : MemStorage) (userId : Z) :
  reachable s → NoDup (Budget.id <$> getBudgetsByUserId s userId).
Proof.
  intros (_ & _ & _ & _ & Hb)%reachable_wfStore.
  apply wfMap_NoDup_ids in Hb. eapply sublist_NoDup; [exact Hb|].
  unfold getBudgetsByUserId. apply fmap_sublist, sublist_filter.
Qed.

(** C2, as the code has it.  In every reachable store, for every user and
    month, budget progress maps the id of each of the user's budgets whose
    categoryId is not 0 to the sum of the amounts of that user's stored
    type="expense" transactions dated within the month whose categoryId
    equals the budget's (a transaction without a categoryId is in no such
    sum); such a budget with no matching expense maps to exactly 0; and the
    progress has an entry for the ids of the user's budgets and for nothing
    else. *)
Theorem getBudgetProgress_spent (startOfMonth endOfMonth : Date → Date)
    (newDate : Z → Z → Z → Date) (s : MemStorage) (userId year month : Z) :
  reachable s →
  let monthStart := startOfMonth (newDate year (month - 1) 1) in
  let monthEnd := endOfMonth (newDate year (month - 1) 1) in
  let progress :=
    getBudgetProgress startOfMonth endOfMonth newDate s userId year month in
  (∀ b, b ∈ getBudgetsByUserId s userId → Budget.categoryId b ≠ 0 →
        progress !! Budget.id b
        = Some (spentInCategory s userId monthStart monthEnd
                                (Budget.categoryId b))) ∧
  (∀ b, b ∈ getBudgetsByUserId s userId → Budget.categoryId b ≠ 0 →
        (∀ t, t ∈ JsMap.values (transactions s) →
              Transaction.userId t = userId →
              Transaction.type t = "expense" →
              monthStart ≤ Transaction.date t ≤ monthEnd →
              Transaction.categoryId t ≠ Some (Budget.categoryId b)) →
        progress !! Budget.id b = Some 0%Qc) ∧
  (∀ k, is_Some (progress !! k) ↔
        ∃ b, b ∈ getBudgetsByUserId s userId ∧ Budget.id b = k).
Proof.
  intros Hreach monthStart monthEnd progress.
  assert (Hspent : ∀ b, b ∈ getBudgetsByUserId s userId →
            Budget.categoryId b ≠ 0 →
            progress !! Budget.id b
            = Some (spentInCategory s userId monthStart monthEnd
                                    (Budget.categoryId b))).
  { intros b Hb Hc. subst progress. unfold getBudgetProgress.
    rewrite foldl_addProgress_lookup;
      [|by apply getBudgetsByUserId_NoDup | done].
    by rewrite categorySpent_spentInCategory. }
  split; [exact Hspent|]. split.
  - intros b Hb Hc Hnone. rewrite Hspent by done. f_equal.
    unfold spentInCategory.
    replace (filter _ _) with (@nil Transaction.t); [done|].
    symmetry. apply elem_of_nil_inv. intros t.
    rewrite list_elem_of_filter. intros [(Hu & Hty & Hd & Hcat) Ht].
    by apply (Hnone t).
  - intros k. subst progress. unfold getBudgetProgress.
    apply foldl_addProgress_dom.
Qed.

Lemma getBudgetProgress_spent_witness :
  (* March 2024: the food budget (id 2, category 2) has spent 84.32. *)
  getBudgetProgress Utc.startOfMonth Utc.endOfMonth Utc.newDate
                    Demo.store 1 2024 3 !! 2
  = Some (Q2Qc (8432 # 100)) ∧
  (* February 2024: nothing was spent. *)
  getBudgetProgress Utc.startOfMonth Utc.endOfMonth Utc.newDate
                    Demo.store 1 2024 2 !! 2
  = Some 0%Qc.
Proof.
  pose (food := {| Budget.id := 2; Budget.userId := 1;
                   Budget.categoryId := 2; Budget.amount := Q2Qc 800;
                   Budget.period := "monthly"; Budget.startDate := Demo.now;
                   Budget.endDate := Utc.newDate 2024 3 15 |}).
  assert (Hfood : food ∈ getBudgetsByUserId Demo.store 1).
  { apply list_elem_of_further, list_elem_of_here. }
  split.
  - destruct (getBudgetProgress_spent Utc.startOfMonth Utc.endOfMonth
                Utc.newDate Demo.store 1 2024 3 reachable_demo_store)
      as (Hspent & _ & _).
    etrans; [apply (Hspent food Hfood); discriminate|].
    f_equal. apply Qc_is_canon. reflexivity.
  - destruct (getBudgetProgress_spent Utc.startOfMonth Utc.endOfMonth
                Utc.newDate Demo.store 1 2024 2 reachable_demo_store)
      as (Hspent & _ & _).
    etrans; [apply (Hspent food Hfood); discriminate|].
    reflexivity.
Defined.

(** A budget on category 0 maps to 0, whatever was spent. *)
Lemma getBudgetProgress_category_zero (startOfMonth endOfMonth : Date → Date)
    (newDate : Z → Z → Z → Date) (s : MemStorage) (userId year month : Z)
    (b : Budget.t) :
  reachable s → b ∈ getBudgetsByUserId s userId → Budget.categoryId b = 0 →
  getBudgetProgress startOfMonth endOfMonth newDate s userId year month
    !! Budget.id b = Some 0%Qc.
Proof.
  intros Hreach Hb Hc. unfold getBudgetProgress.
  rewrite foldl_addProgress_lookup;
    [|by apply getBudgetsByUserId_NoDup | done].
  by rewrite Hc, foldl_addSpent_zero, lookup_empty.
Qed.

(** C2, as stated, fails for a budget on categoryId 0: in [Demo.zeroStore]
    the user's only budget has categoryId 0, and the user's only
    transaction is an expense of 5 in March 2024 with categoryId 0; the sum
    for the budget's categoryId is 5, and the progress of March 2024 maps
    the budget to 0. *)
Lemma getBudgetProgress_spent_counterexample :
  reachable Demo.zeroStore ∧
  getBudgetsByUserId Demo.zeroStore 1 = [Demo.zeroBudget] ∧
  Transaction.categoryId <$> JsMap.values (transactions Demo.zeroStore)
  = [Some 0] ∧
  spentInCategory Demo.zeroStore 1
    (Utc.startOfMonth (Utc.newDate 2024 2 1))
    (Utc.endOfMonth (Utc.newDate 2024 2 1))
    (Budget.categoryId Demo.zeroBudget)
  = Q2Qc 5 ∧
  getBudgetProgress Utc.startOfMonth Utc.endOfMonth Utc.newDate
                    Demo.zeroStore 1 2024 3 !! Budget.id Demo.zeroBudget
  = Some 0%Qc ∧
  getBudgetProgress Utc.startOfMonth Utc.endOfMonth Utc.newDate
                    Demo.zeroStore 1 2024 3 !! Budget.id Demo.zeroBudget
  ≠ Some (spentInCategory Demo.zeroStore 1
            (Utc.startOfMonth (Utc.newDate 2024 2 1))
            (Utc.endOfMonth (Utc.newDate 2024 2 1))
            (Budget.categoryId Demo.zeroBudget)).
Proof.
  split; [exact reachable_demo_zeroStore|].
  split; [reflexivity|]. split; [reflexivity|].
  split; [apply Qc_is_canon; reflexivity|].
  split; [reflexivity|].
  intros H. apply (f_equal (fmap Qcanon.this)) in H. vm_compute in H.
  discriminate H.
Qed.

(** ** Scenarios of the specification *)

(** Descending order: transactions dated the 1st, the 15th and the 10th
    come back as the 15th, the 10th, the 1st. *)
Example scenario_descending_order :
  Transaction.description <$> getTransactionsByUserId Demo.threeDates 1
  = ["fifteenth"; "tenth"; "first"].
Proof. reflexivity. Qed.

(** Recent-limit: of the five demo transactions the two most recent. *)
Example scenario_recent_limit :
  Transaction.date <$> getRecentTransactions Demo.store 1 2
  = [Utc.newDate 2024 2 24; Utc.newDate 2024 2 20].
Proof. reflexivity. Qed.

(** Budget progress: 50 + 30 spent on the budget of 200. *)
Example scenario_budget_progress :
  getBudgetProgress Utc.startOfMonth Utc.endOfMonth Utc.newDate
                    Demo.foodStore 1 2024 3
  = {[ 1 := Q2Qc 80 ]}.
Proof.
  apply map_eq. intros k. destruct (decide (k = 1)) as [->|Hk].
  - rewrite lookup_singleton_eq. reflexivity.
  - rewrite lookup_singleton_ne by done.
    apply eq_None_not_Some. intros Hsome.
    apply foldl_addProgress_dom in Hsome as (b & Hb & Hid).
    apply list_elem_of_singleton in Hb. subst b. simpl in Hid. lia.
Qed.

(** Summary totals of the demo data in March 2024, in doubles: income
    2620, expenses 1594.98, savings 1025.02, and a total balance of 8254;
    the previous month is empty, so every change is 0. *)
Example scenario_summary_totals :
  let summary := getSummary Utc.subMonths Utc.startOfMonth Utc.endOfMonth
                            Double.ofQc Demo.store 1 Demo.now in
  monthlyIncome summary = 2620%float ∧
  monthlyExpenses summary = Double.ofQc (Q2Qc (159498 # 100)) ∧
  monthlySavings summary = Double.ofQc (Q2Qc (102502 # 100)) ∧
  totalBalance summary = 8254%float ∧
  incomeChange summary = 0%float ∧ expensesChange summary = 0%float ∧
  savingsChange summary = 0%float.
Proof. repeat split. Qed.

(** Rounding decides the guard: with previous incomes of 0.1 and 0.2 and
    a previous expense of 0.3 the previous savings are not 0 in doubles,
    so the savings change is the quotient, of the order of 10^20. *)
Example scenario_rounding :
  let summary := getSummary Utc.subMonths Utc.startOfMonth Utc.endOfMonth
                            Double.ofQc Demo.roundingStore 1 Demo.now in
  let previousSavings :=
    (monthValue Double.ofQc Demo.roundingStore 1 "income"
                (Utc.startOfMonth (Utc.subMonths Demo.now 1))
                (Utc.endOfMonth (Utc.subMonths Demo.now 1))
     - monthValue Double.ofQc Demo.roundingStore 1 "expense"
                  (Utc.startOfMonth (Utc.subMonths Demo.now 1))
                  (Utc.endOfMonth (Utc.subMonths Demo.now 1)))%float in
  (previousSavings =? 0)%float = false ∧
  (0 <? previousSavings)%float = true ∧
  (previousSavings <? 1 / 1000000000000000)%float = true ∧
  monthlySavings summary = 100%float ∧
  (100000000000000000000 <? savingsChange summary)%float = true.
Proof. repeat split. Qed.

(** * Further properties of the repository and the routes *)

(** ** Creation and lookup *)

Lemma wfMap_createsFresh {T} (idOf : T → Z) (counter : Z) (m : JsMap.t T)
    (v : T) :
  wfMap idOf counter m →
  JsMap.get counter m = None ∧
  JsMap.get counter (JsMap.set counter v m) = Some v ∧
  ∀ id, id ≠ counter → JsMap.get id (JsMap.set counter v m) = JsMap.get id m.
Proof.
  intros Hwf. split; [by eapply wfMap_counter_fresh|].
  split; [apply JsMapFacts.get_set_eq|].
  intros id Hid. by apply JsMapFacts.get_set_ne.
Qed.

(** X1.  In every reachable store each of the five [create] methods hands out
    an id that was not in use, stores the new record under it, and leaves
    every other lookup of the kind as it was: nothing is overwritten. *)
Theorem create_never_overwrites (s : MemStorage) :
  reachable s →
  (∀ now x, createsFresh (createUser now) User.id getUser s x) ∧
  (∀ x, createsFresh createAccount Account.id getAccount s x) ∧
  (∀ x, createsFresh createCategory Category.id getCategory s x) ∧
  (∀ x, createsFresh createTransaction Transaction.id getTransaction s x) ∧
  (∀ x, createsFresh createBudget Budget.id getBudget s x).
Proof.
  intros (Wu & Wa & Wc & Wt & Wb)%reachable_wfStore.
  split; [|split; [|split; [|split]]]; intros; unfold createsFresh;
    by eapply wfMap_createsFresh.
Qed.

Lemma create_never_overwrites_witness :
  getTransaction Demo.store 6 = None ∧
  getTransaction
    (createTransaction Demo.store
       (Demo.tx 1 (Some 2) (Q2Qc 30) "Lunch" 16 "expense" "Cash")).2 1
  = Some Demo.paycheck.
Proof.
  destruct (create_never_overwrites Demo.store reachable_demo_store)
    as (_ & _ & _ & Htx & _).
  destruct (Htx (Demo.tx 1 (Some 2) (Q2Qc 30) "Lunch" 16 "expense" "Cash"))
    as (Hfresh & _ & Hother).
  split; [exact Hfresh|].
  rewrite Hother; [reflexivity | discriminate].
Defined.

(** X2.  In every reachable store a lookup by id returns a record that carries
    that id, and the id lies between 1 and the last one handed out. *)
Theorem stored_under_own_id (s : MemStorage) :
  reachable s →
  (∀ id r, getUser s id = Some r →
           User.id r = id ∧ 1 ≤ id < userIdCounter s) ∧
  (∀ id r, getAccount s id = Some r →
           Account.id r = id ∧ 1 ≤ id < accountIdCounter s) ∧
  (∀ id r, getCategory s id = Some r →
           Category.id r = id ∧ 1 ≤ id < categoryIdCounter s) ∧
  (∀ id r, getTransaction s id = Some r →
           Transaction.id r = id ∧ 1 ≤ id < transactionIdCounter s) ∧
  (∀ id r, getBudget s id = Some r →
           Budget.id r = id ∧ 1 ≤ id < budgetIdCounter s).
Proof.
  intros (Wu & Wa & Wc & Wt & Wb)%reachable_wfStore.
  split; [|split; [|split; [|split]]]; intros id r Hget;
    eapply wfMap_get; eauto.
Qed.

Lemma stored_under_own_id_witness :
  ∃ r, getAccount Demo.store 2 = Some r ∧ Account.id r = 2.
Proof.
  eexists. split; [reflexivity|].
  destruct (stored_under_own_id Demo.store reachable_demo_store)
    as (_ & Hacc & _).
  apply (Hacc 2 _ eq_refl).
Defined.

(** ** Balance updates *)

Lemma set_set {V} (k : Z) (v1 v2 : V) (m : JsMap.t V) :
  JsMap.set k v2 (JsMap.set k v1 m) = JsMap.set k v2 m.
Proof.
  induction m as [|[k' v'] m IH]; simpl.
  - by rewrite decide_True.
  - destruct (decide (k' = k)) as [->|Hne]; simpl.
    + by rewrite decide_True.
    + by rewrite decide_False, IH.
Qed.

(** X3.  Two balance updates of one account in a row amount to the second one
    alone: same result, same store (and the same error on a missing id). *)
Theorem updateAccountBalance_last_wins (s : MemStorage) (id : Z)
    (b1 b2 : Qc) :
  updateAccountBalance (updateAccountBalance s id b1).2 id b2
  = updateAccountBalance s id b2.
Proof.
  unfold updateAccountBalance.
  destruct (JsMap.get id (accounts s)) as [account|] eqn:Hget; simpl.
  - rewrite JsMapFacts.get_set_eq. simpl. by rewrite set_set.
  - by rewrite Hget.
Qed.

(** The values of a well-formed map after a present key is set to an
    update [g] of the record it holds: that record is replaced where it
    stands. *)
Lemma values_set_present {T} (idOf : T → Z) (counter : Z) (m : JsMap.t T)
    (k : Z) (v0 : T) (g : T → T) :
  wfMap idOf counter m → JsMap.get k m = Some v0 →
  JsMap.values (JsMap.set k (g v0) m)
  = (λ r, if decide (idOf r = k) then g r else r) <$> JsMap.values m.
Proof.
  intros (_ & Hnd & Hall) Hget. unfold JsMap.values, JsMap.keys in *.
  induction m as [|[k' v'] m IH]; [done|].
  apply NoDup_cons in Hnd as [Hk' Hnd].
  apply Forall_cons in Hall as [[Hid _] Hall]. simpl in Hid, Hget.
  simpl. destruct (decide (k' = k)) as [->|Hne]; csimpl.
  - injection Hget as ->. rewrite Hid, decide_True by done. f_equal.
    clear IH. induction m as [|[k0 v1] m IH]; [done|].
    apply Forall_cons in Hall as [[Hid0 _] Hall]. simpl in Hid0.
    csimpl in Hk'. apply not_elem_of_cons in Hk' as [Hk0 Hk'].
    apply NoDup_cons in Hnd as [_ Hnd].
    csimpl. rewrite Hid0, decide_False by done. f_equal. by apply IH.
  - rewrite Hid, decide_False by done. f_equal. by apply IH.
Qed.

Lemma filter_fmap_preserved {A} (P : A → Prop) `{∀ x, Decision (P x)}
    (f : A → A) (l : list A) :
  (∀ a, P (f a) ↔ P a) → filter P (f <$> l) = f <$> filter P l.
Proof.
  intros Hf. induction l as [|a l IH]; [done|]. csimpl.
  rewrite !filter_cons. destruct (decide (P a)) as [Ha|Ha].
  - rewrite decide_True by by apply Hf. csimpl. by rewrite IH.
  - rewrite decide_False by by rewrite Hf. done.
Qed.

(** X4.  In a reachable store a balance update keeps every user's account list
    in length and order; the only element that differs is the account with
    that id, whose balance is the new value. *)
Theorem updateAccountBalance_in_list (s : MemStorage) (id : Z) (b : Qc)
    (account : Account.t) (userId : Z) :
  reachable s → getAccount s id = Some account →
  getAccountsByUserId (updateAccountBalance s id b).2 userId
  = (λ a, if decide (Account.id a = id) then withBalance a b else a)
    <$> getAccountsByUserId s userId.
Proof.
  intros Hreach Hget.
  pose proof (reachable_wfStore s Hreach) as (_ & Wa & _).
  destruct (updateAccountBalance_present s id b account Hget)
    as (s' & Hrun & Hacc & _).
  rewrite Hrun. unfold getAccountsByUserId. cbn [snd]. rewrite Hacc.
  rewrite (values_set_present Account.id _ _ _ _ (λ a, withBalance a b) Wa Hget).
  apply filter_fmap_preserved. intros a. by case_decide.
Qed.

Lemma updateAccountBalance_in_list_witness :
  Account.name <$> getAccountsByUserId
                     (updateAccountBalance Demo.store 2 (Q2Qc 1)).2 1
  = ["Checking Account"; "Savings Account"] ∧
  Account.balance <$> getAccountsByUserId
                        (updateAccountBalance Demo.store 2 (Q2Qc 1)).2 1
  = [Q2Qc 5000; Q2Qc 1].
Proof.
  rewrite (updateAccountBalance_in_list Demo.store 2 (Q2Qc 1) _ 1
             reachable_demo_store eq_refl).
  split; reflexivity.
Defined.

(** ** Lists by user after a creation *)

Lemma values_set_new {T} (idOf : T → Z) (counter : Z) (m : JsMap.t T) (v : T) :
  wfMap idOf counter m →
  JsMap.values (JsMap.set counter v m) = JsMap.values m ++ [v].
Proof.
  intros Hwf. apply JsMapFacts.values_set_absent.
  by eapply wfMap_counter_fresh.
Qed.

Lemma filter_snoc {A} (P : A → Prop) `{∀ x, Decision (P x)} (l : list A)
    (x : A) :
  filter P (l ++ [x]) = filter P l ++ (if decide (P x) then [x] else []).
Proof. by rewrite filter_app, filter_singleton. Qed.

(** X5.  In a reachable store a created account, category or budget is appended
    to its owner's list, and the list of every other user is unchanged. *)
Theorem list_by_user_after_create (s : MemStorage) (userId : Z) :
  reachable s →
  (∀ x, getAccountsByUserId (createAccount s x).2 userId
        = getAccountsByUserId s userId
          ++ (if decide (InsertAccount.userId x = userId)
              then [(createAccount s x).1] else [])) ∧
  (∀ x, getCategoriesByUserId (createCategory s x).2 userId
        = getCategoriesByUserId s userId
          ++ (if decide (InsertCategory.userId x = userId)
              then [(createCategory s x).1] else [])) ∧
  (∀ x, getBudgetsByUserId (createBudget s x).2 userId
        = getBudgetsByUserId s userId
          ++ (if decide (InsertBudget.userId x = userId)
              then [(createBudget s x).1] else [])).
Proof.
  intros (_ & Wa & Wc & _ & Wb)%reachable_wfStore.
  split; [|split]; intros x.
  - unfold getAccountsByUserId, createAccount. cbn [snd fst accounts].
    by rewrite (values_set_new Account.id _ _ _ Wa), filter_snoc.
  - unfold getCategoriesByUserId, createCategory. cbn [snd fst categories].
    by rewrite (values_set_new Category.id _ _ _ Wc), filter_snoc.
  - unfold getBudgetsByUserId, createBudget. cbn [snd fst budgets].
    by rewrite (values_set_new Budget.id _ _ _ Wb), filter_snoc.
Qed.

Lemma list_by_user_after_create_witness :
  Account.name <$> getAccountsByUserId
                     (createAccount Demo.store
                        (InsertAccount.mk 1 "Cash" "cash" (Q2Qc 10) false)).2 1
  = ["Checking Account"; "Savings Account"; "Cash"].
Proof.
  destruct (list_by_user_after_create Demo.store 1 reachable_demo_store)
    as (Hacc & _).
  rewrite Hacc. reflexivity.
Defined.

(** X6.  In a reachable store a created transaction joins the transactions of
    its user, and the lists of every other user (all, by date range,
    recent) are unchanged. *)
Theorem transactions_after_create (s : MemStorage) (x : InsertTransaction.t)
    (userId : Z) :
  reachable s →
  (InsertTransaction.userId x = userId →
     getTransactionsByUserId (createTransaction s x).2 userId
     ≡ₚ (createTransaction s x).1 :: getTransactionsByUserId s userId) ∧
  (InsertTransaction.userId x ≠ userId →
     getTransactionsByUserId (createTransaction s x).2 userId
     = getTransactionsByUserId s userId ∧
     (∀ startDate endDate,
        getTransactionsByDateRange (createTransaction s x).2 userId
                                   startDate endDate
        = getTransactionsByDateRange s userId startDate endDate) ∧
     (∀ limit,
        getRecentTransactions (createTransaction s x).2 userId limit
        = getRecentTransactions s userId limit)).
Proof.
  intros (_ & _ & _ & Wt & _)%reachable_wfStore.
  pose proof (values_set_new Transaction.id _ _ (createTransaction s x).1 Wt)
    as Hvalues.
  unfold getTransactionsByUserId, getTransactionsByDateRange,
    getRecentTransactions.
  change (transactions (createTransaction s x).2)
    with (JsMap.set (transactionIdCounter s) (createTransaction s x).1
                    (transactions s)).
  rewrite Hvalues, !filter_snoc. split.
  - intros Hu. rewrite decide_True by done.
    rewrite !sort_Permutation. by rewrite Permutation_app_comm.
  - intros Hu. rewrite decide_False by done. rewrite app_nil_r.
    split; [done|]. split; [|done].
    intros startDate endDate. rewrite filter_snoc.
    rewrite decide_False; [by rewrite app_nil_r|]. by intros [? _].
Qed.

Lemma transactions_after_create_witness :
  getTransactionsByUserId
    (createTransaction Demo.store
       (Demo.tx 1 (Some 2) (Q2Qc 30) "Lunch" 16 "expense" "Cash")).2 2
  = [].
Proof.
  destruct (transactions_after_create Demo.store
              (Demo.tx 1 (Some 2) (Q2Qc 30) "Lunch" 16 "expense" "Cash") 2
              reachable_demo_store) as (_ & Hother).
  destruct Hother as (Hall & _); [discriminate|].
  rewrite Hall. reflexivity.
Defined.

(** ** Order of the transaction lists *)

(** The sort is stable: the elements of any one date keep their order. *)
Lemma sortInsert_filter_date (d : Date) (x : Transaction.t)
    (l : list Transaction.t) :
  filter (λ t, Transaction.date t = d) (sortInsert byDateDesc x l)
  = filter (λ t, Transaction.date t = d) (x :: l).
Proof.
  induction l as [|y l IH]; [done|]. simpl.
  unfold byDateDesc at 1. destruct (decide (0 < _)) as [Hlt|Hge]; [|done].
  rewrite filter_cons, IH, !filter_cons.
  destruct (decide (Transaction.date y = d)) as [Hy|Hy]; [|done].
  destruct (decide (Transaction.date x = d)) as [Hx|Hx]; [lia | done].
Qed.

Lemma sort_filter_date (d : Date) (l : list Transaction.t) :
  filter (λ t, Transaction.date t = d) (sort byDateDesc l)
  = filter (λ t, Transaction.date t = d) l.
Proof.
  unfold sort. induction l as [|x l IH]; [done|]. simpl.
  rewrite sortInsert_filter_date, !filter_cons. fold (sort byDateDesc l).
  unfold sort in *. by rewrite IH.
Qed.

(** X7.  Ties in the date order are broken by insertion order: in the list of
    a user's transactions, and in a date-range list, the transactions of
    any one date come in the order in which the store holds them. *)
Theorem equal_dates_keep_insertion_order (s : MemStorage) (userId : Z)
    (d : Date) :
  filter (λ t, Transaction.date t = d) (getTransactionsByUserId s userId)
  = filter (λ t, Transaction.date t = d ∧ Transaction.userId t = userId)
           (JsMap.values (transactions s)) ∧
  ∀ startDate endDate, startDate ≤ d ≤ endDate →
    filter (λ t, Transaction.date t = d)
           (getTransactionsByDateRange s userId startDate endDate)
    = filter (λ t, Transaction.date t = d ∧ Transaction.userId t = userId)
             (JsMap.values (transactions s)).
Proof.
  unfold getTransactionsByUserId, getTransactionsByDateRange. split.
  - by rewrite sort_filter_date, list_filter_filter.
  - intros startDate endDate Hd.
    rewrite sort_filter_date, list_filter_filter.
    apply list_filter_iff. intros t. split; [tauto|].
    intros [Ht Hu]. split; [done|]. split; [done|]. lia.
Qed.

Lemma equal_dates_keep_insertion_order_witness :
  let s := (createTransaction Demo.store
              (Demo.tx 1 (Some 2) (Q2Qc 30) "Lunch" 15 "expense" "Cash")).2 in
  let d := Utc.newDate 2024 2 15 in
  Transaction.description
  <$> filter (λ t, Transaction.date t = d)
             (getTransactionsByDateRange s 1 (Utc.newDate 2024 2 1)
                                         (Utc.newDate 2024 2 31))
  = ["Paycheck"; "Lunch"].
Proof.
  intros s d.
  destruct (equal_dates_keep_insertion_order s 1 d) as [_ Hrange].
  rewrite (Hrange (Utc.newDate 2024 2 1) (Utc.newDate 2024 2 31)).
  - reflexivity.
  - vm_compute. split; discriminate.
Defined.

(** X8.  For a limit [n >= 0] the recent transactions are the most recent ones:
    there are [min n count] of them, they head the user's list, and no
    transaction of the user left out is dated later than one returned. *)
Theorem recent_are_most_recent (s : MemStorage) (userId : Z) (n : Z) :
  0 ≤ n →
  let all := getTransactionsByUserId s userId in
  let recent := getRecentTransactions s userId n in
  length recent = Z.to_nat (Z.min n (Z.of_nat (length all))) ∧
  all = recent ++ drop (length recent) all ∧
  (∀ t, t ∈ recent → Transaction.userId t = userId) ∧
  (∀ a b, a ∈ recent → b ∈ drop (length recent) all →
          Transaction.date b ≤ Transaction.date a).
Proof.
  intros Hn all recent.
  assert (Hrecent : recent = take (Z.to_nat n) all).
  { subst recent all.
    unfold getRecentTransactions, getTransactionsByUserId, slice0.
    rewrite decide_False by lia.
    rewrite length_sort.
    set (l := sort _ _). set (len := length _).
    assert (len = length l) as -> by (subst l; by rewrite length_sort).
    destruct (decide (n ≤ Z.of_nat (length l))).
    - by rewrite Z.min_l by lia.
    - rewrite Z.min_r by lia. rewrite Nat2Z.id.
      rewrite !take_ge by lia. done. }
  assert (Hlen : length recent = Z.to_nat (Z.min n (Z.of_nat (length all)))).
  { rewrite Hrecent, length_take. lia. }
  assert (Hsplit : all = recent ++ drop (length recent) all).
  { rewrite Hrecent at 1. rewrite Hrecent, length_take.
    destruct (decide (Z.to_nat n ≤ length all)%nat).
    - rewrite Nat.min_l by done. by rewrite take_drop.
    - rewrite Nat.min_r by lia. rewrite take_ge by lia.
      rewrite drop_all. by rewrite app_nil_r. }
  split; [done|]. split; [done|]. split.
  - intros t Ht. assert (Hall : t ∈ all).
    { rewrite Hsplit. apply elem_of_app. by left. }
    subst all. unfold getTransactionsByUserId in Hall.
    apply elem_of_sort, list_elem_of_filter in Hall. tauto.
  - intros a b Ha Hb.
    pose proof (sort_byDateDesc
                  (filter (λ t, Transaction.userId t = userId)
                          (JsMap.values (transactions s)))) as Hsorted.
    fold (getTransactionsByUserId s userId) in Hsorted. fold all in Hsorted.
    rewrite Hsplit in Hsorted.
    by apply (StronglySorted_app_1_elem_of _ _ _ a b) in Hsorted.
Qed.

Lemma recent_are_most_recent_witness :
  length (getRecentTransactions Demo.store 1 5) = 5%nat ∧
  length (getRecentTransactions Demo.store 1 2) = 2%nat ∧
  length (getRecentTransactions Demo.store 1 9) = 5%nat.
Proof.
  destruct (recent_are_most_recent Demo.store 1 5) as (H5 & _); [lia|].
  destruct (recent_are_most_recent Demo.store 1 2) as (H2 & _); [lia|].
  destruct (recent_are_most_recent Demo.store 1 9) as (H9 & _); [lia|].
  rewrite H5, H2, H9. repeat split.
Defined.

(** ** The transaction feed *)

Lemma StronglySorted_filter {A} (R : relation A) (P : A → Prop)
    `{∀ x, Decision (P x)} (l : list A) :
  StronglySorted R l → StronglySorted R (filter P l).
Proof.
  induction 1 as [|x l Hl IH Hx]; [constructor|].
  rewrite filter_cons. destruct (decide (P x)); [|done].
  constructor; [done|].
  apply Forall_forall. intros y [_ Hy]%list_elem_of_filter.
  rewrite Forall_forall in Hx. by apply Hx.
Qed.

(** X9.  Whatever the time frame and the category filter, the feed holds only
    stored transactions of the session's user dated from the start of the
    time frame up to now, in descending order of date; with a category
    filter that reads as the number [n] they all have categoryId [n], with
    one that reads as no number the feed is empty, and with the filter
    "all" the feed is the same as without a filter. *)
Theorem feed_contents (subDays : Date → Z → Date)
    (newDate : Z → Z → Z → Date) (getFullYear : Date → Z)
    (toNumber : string → option Z) (s : MemStorage) (userId : Z)
    (categoryId timeFrame : option string) (now : Date) :
  let feed :=
    getTransactionsFeed subDays newDate getFullYear toNumber s userId
                        categoryId timeFrame now in
  (∀ t, t ∈ feed →
        t ∈ JsMap.values (transactions s) ∧
        Transaction.userId t = userId ∧
        timeFrameStart subDays newDate getFullYear timeFrame now
        ≤ Transaction.date t ≤ now) ∧
  StronglySorted dateDesc feed ∧
  (∀ c n, categoryId = Some c → c ≠ EmptyString → c ≠ "all" →
          toNumber c = Some n →
          ∀ t, t ∈ feed → Transaction.categoryId t = Some n) ∧
  (∀ c, categoryId = Some c → c ≠ EmptyString → c ≠ "all" →
        toNumber c = None → feed = []) ∧
  (categoryId = Some "all" →
     feed = getTransactionsFeed subDays newDate getFullYear toNumber s userId
                                None timeFrame now).
Proof.
  intros feed. subst feed. unfold getTransactionsFeed.
  set (range := getTransactionsByDateRange s userId _ now).
  assert (Hrange : ∀ t, t ∈ range →
            t ∈ JsMap.values (transactions s) ∧
            Transaction.userId t = userId ∧
            timeFrameStart subDays newDate getFullYear timeFrame now
            ≤ Transaction.date t ≤ now).
  { intros t Ht. by apply elem_of_getTransactionsByDateRange in Ht. }
  assert (Hsorted : StronglySorted dateDesc range)
    by apply sort_byDateDesc.
  destruct categoryId as [c|].
  2: { split; [done|]. split; [done|]. repeat split; intros; done. }
  destruct (decide (c ≠ EmptyString ∧ c ≠ "all")) as [[Hc1 Hc2]|Hc].
  - destruct (toNumber c) as [n|] eqn:Hnum.
    + split. { intros t [_ Ht]%list_elem_of_filter. by apply Hrange. }
      split. { by apply StronglySorted_filter. }
      split. { intros c' n' [= <-] _ _ Hn' t [Ht _]%list_elem_of_filter.
               congruence. }
      split. { intros c' [= <-] _ _ Hn'. congruence. }
      intros [= ->]. done.
    + split. { intros t Ht. by apply elem_of_nil in Ht. }
      split. { constructor. }
      split. { intros c' n' [= <-] _ _ Hn'. congruence. }
      split; [done|]. intros [= ->]. done.
  - split; [done|]. split; [done|].
    split. { intros c' n' [= <-] ? ? _. tauto. }
    split. { intros c' [= <-] ? ? _. tauto. }
    done.
Qed.

Lemma feed_contents_witness :
  Transaction.description
  <$> getTransactionsFeed Utc.subDays Utc.newDate Utc.getFullYear
        Utc.toNumber Demo.store 1 (Some "3") (Some "30days") Demo.now
  = ["Shell Gas Station"] ∧
  ∀ t, t ∈ getTransactionsFeed Utc.subDays Utc.newDate Utc.getFullYear
             Utc.toNumber Demo.store 1 (Some "3") (Some "30days") Demo.now →
       Transaction.categoryId t = Some 3.
Proof.
  split; [reflexivity|].
  destruct (feed_contents Utc.subDays Utc.newDate Utc.getFullYear
              Utc.toNumber Demo.store 1 (Some "3") (Some "30days") Demo.now)
    as (_ & _ & Hcat & _).
  apply (Hcat "3" 3); [reflexivity | discriminate | discriminate | reflexivity].
Defined.

(** ** Users: lookup by name, registration, login *)

Lemma arrayFind_Some {A} (P : A → Prop) `{∀ x, Decision (P x)} (l : list A)
    (x : A) :
  arrayFind P l = Some x → x ∈ l ∧ P x.
Proof.
  unfold arrayFind. intros ([i y] & Hfind & ->)%fmap_Some.
  apply list_find_Some in Hfind as (Hl & HP & _).
  split; [by eapply list_elem_of_lookup_2 | done].
Qed.

Lemma arrayFind_None {A} (P : A → Prop) `{∀ x, Decision (P x)} (l : list A) :
  arrayFind P l = None ↔ ∀ x, x ∈ l → ¬ P x.
Proof.
  unfold arrayFind. rewrite fmap_None, list_find_None, Forall_forall. done.
Qed.

(** Behind a prefix without a match, [find] returns the first match of the
    rest. *)
Lemma arrayFind_app_r {A} (P : A → Prop) `{∀ x, Decision (P x)}
    (l1 l2 : list A) :
  arrayFind P l1 = None → arrayFind P (l1 ++ l2) = arrayFind P l2.
Proof.
  unfold arrayFind. intros Hnone%fmap_None.
  rewrite list_find_app_r by done. rewrite <- option_fmap_compose.
  by destruct (list_find P l2) as [[i x]|].
Qed.

Lemma arrayFind_cons {A} (P : A → Prop) `{∀ x, Decision (P x)} (x : A)
    (l : list A) :
  arrayFind P (x :: l) = if decide (P x) then Some x else arrayFind P l.
Proof.
  unfold arrayFind. csimpl. destruct (decide (P x)); [done|].
  rewrite <- option_fmap_compose. by destruct (list_find P l) as [[i y]|].
Qed.

(** Where the keys [f] of a list are distinct, [find] by key returns the
    element that carries the key. *)
Lemma arrayFind_unique {A K} (f : A → K) `{EqDecision K} (l : list A) (x : A) :
  NoDup (f <$> l) → x ∈ l → arrayFind (λ y, f y = f x) l = Some x.
Proof.
  induction l as [|y l IH]; [by intros _ ?%elem_of_nil|].
  rewrite fmap_cons, NoDup_cons, arrayFind_cons.
  intros [Hy Hnd] [->|Hx]%elem_of_cons.
  - by rewrite decide_True.
  - rewrite decide_False; [by apply IH|].
    intros Heq. apply Hy. rewrite Heq. by apply list_elem_of_fmap_2.
Qed.

(** X10.  [getUserByUsername] and [getUserByEmail] compare case-insensitively:
    a user they return is stored and matches; they return nothing exactly
    when no stored user matches; where the stored usernames are distinct,
    every stored user is found under its own username, however the query
    is cased; and where the stored emails are distinct, every stored user
    is found under its own email, however the query is cased. *)
Theorem user_lookup_by_name (toLowerCase : string → string) (s : MemStorage) :
  (∀ q user, getUserByUsername toLowerCase s q = Some user →
     user ∈ JsMap.values (users s) ∧
     toLowerCase (User.username user) = toLowerCase q) ∧
  (∀ q, getUserByUsername toLowerCase s q = None ↔
     ∀ user, user ∈ JsMap.values (users s) →
             toLowerCase (User.username user) ≠ toLowerCase q) ∧
  (∀ q user, getUserByEmail toLowerCase s q = Some user →
     user ∈ JsMap.values (users s) ∧
     toLowerCase (User.email user) = toLowerCase q) ∧
  (∀ q, getUserByEmail toLowerCase s q = None ↔
     ∀ user, user ∈ JsMap.values (users s) →
             toLowerCase (User.email user) ≠ toLowerCase q) ∧
  (usernamesDistinct toLowerCase s →
   ∀ q user, user ∈ JsMap.values (users s) →
     toLowerCase q = toLowerCase (User.username user) →
     getUserByUsername toLowerCase s q = Some user) ∧
  (emailsDistinct toLowerCase s →
   ∀ q user, user ∈ JsMap.values (users s) →
     toLowerCase q = toLowerCase (User.email user) →
     getUserByEmail toLowerCase s q = Some user).
Proof.
  unfold getUserByUsername, getUserByEmail.
  split; [by intros q user H%arrayFind_Some|].
  split; [intros q; by rewrite arrayFind_None|].
  split; [by intros q user H%arrayFind_Some|].
  split; [intros q; by rewrite arrayFind_None|].
  split.
  - intros Hnames q user Hin ->.
    by apply (arrayFind_unique (λ u, toLowerCase (User.username u))).
  - intros Hemails q user Hin ->.
    by apply (arrayFind_unique (λ u, toLowerCase (User.email u))).
Qed.

Lemma usersDistinct_demo : usersDistinct UtcMore.toLowerCase Demo.store.
Proof. split; apply NoDup_singleton. Defined.

Lemma usernamesDistinct_demo :
  usernamesDistinct UtcMore.toLowerCase Demo.store.
Proof. apply NoDup_singleton. Defined.

Lemma emailsDistinct_demo : emailsDistinct UtcMore.toLowerCase Demo.store.
Proof. apply NoDup_singleton. Defined.

Lemma user_lookup_by_name_witness :
  User.name <$> getUserByUsername UtcMore.toLowerCase Demo.store "DeMo"
  = Some "Demo User" ∧
  User.name <$> getUserByEmail UtcMore.toLowerCase Demo.store
                  "Demo@Example.COM"
  = Some "Demo User" ∧
  getUserByUsername UtcMore.toLowerCase Demo.store "demo2" = None.
Proof.
  destruct (user_lookup_by_name UtcMore.toLowerCase Demo.store)
    as (_ & Hnone & _ & _ & Hbyname & Hbyemail).
  pose (demo := {| User.id := 1; User.username := "demo";
                   User.password := "password";
                   User.email := "demo@example.com";
                   User.name := "Demo User"; User.createdAt := Demo.now |}).
  assert (Hin : demo ∈ JsMap.values (users Demo.store))
    by apply list_elem_of_here.
  rewrite (Hbyname usernamesDistinct_demo "DeMo" demo Hin eq_refl).
  rewrite (Hbyemail emailsDistinct_demo "Demo@Example.COM" demo Hin eq_refl).
  split; [reflexivity|]. split; [reflexivity|].
  apply Hnone. intros user ->%list_elem_of_singleton. discriminate.
Defined.

(** A user stored in a well-formed map is found under its own id. *)
Lemma wfMap_value_get {T} (idOf : T → Z) (counter : Z) (m : JsMap.t T) (v : T) :
  wfMap idOf counter m → v ∈ JsMap.values m →
  JsMap.get (idOf v) m = Some v ∧ 1 ≤ idOf v.
Proof.
  intros (_ & Hnd & Hall) Hin. unfold JsMap.values in Hin.
  apply list_elem_of_fmap in Hin as ([k v'] & -> & Hin).
  rewrite Forall_forall in Hall. destruct (Hall _ Hin) as [Hid Hk].
  simpl in *. rewrite Hid. split; [|lia].
  by apply JsMapFacts.elem_get_Some.
Qed.

(** X11.  Registration answers 400 exactly when a stored user has the username
    or the email of the request, compared case-insensitively, and then the
    store is unchanged; otherwise it answers 201 with the created user,
    password removed, and the store is the one [createUser] leaves. *)
Theorem register_outcome (toLowerCase : string → string) (now : Date)
    (s : MemStorage) (x : InsertUser.t) :
  let r := postRegister toLowerCase now s x in
  (status r.1 = 400 ↔
   ∃ user, user ∈ JsMap.values (users s) ∧
     (toLowerCase (User.username user) = toLowerCase (InsertUser.username x) ∨
      toLowerCase (User.email user) = toLowerCase (InsertUser.email x))) ∧
  (status r.1 = 400 → r.2 = s) ∧
  (status r.1 ≠ 400 →
   r = (mkResponse 201 (inl (withoutPassword (createUser now s x).1)),
        (createUser now s x).2)).
Proof.
  intros r. subst r. unfold postRegister.
  destruct (getUserByUsername toLowerCase s (InsertUser.username x))
    as [u|] eqn:Hname.
  { apply arrayFind_Some in Hname as [Hin Hu]. simpl.
    split; [|by split]. split; [|done]. intros _. exists u. auto. }
  destruct (getUserByEmail toLowerCase s (InsertUser.email x))
    as [u|] eqn:Hemail.
  { apply arrayFind_Some in Hemail as [Hin Hu]. simpl.
    split; [|by split]. split; [|done]. intros _. exists u. auto. }
  unfold getUserByUsername in Hname. unfold getUserByEmail in Hemail.
  rewrite arrayFind_None in Hname. rewrite arrayFind_None in Hemail.
  destruct (createUser now s x) as [user s1] eqn:Hcreate. simpl.
  split; [|by split]. split; [done|].
  intros (u & Hin & [Hu|Hu]); exfalso;
    [by apply (Hname u) | by apply (Hemail u)].
Qed.

Lemma register_outcome_witness :
  status (postRegister UtcMore.toLowerCase Demo.now Demo.store
            (InsertUser.mk "DEMO" "secret" "other@example.com" "Other")).1
  = 400 ∧
  (postRegister UtcMore.toLowerCase Demo.now Demo.store
     (InsertUser.mk "DEMO" "secret" "other@example.com" "Other")).2
  = Demo.store.
Proof.
  destruct (register_outcome UtcMore.toLowerCase Demo.now Demo.store
              (InsertUser.mk "DEMO" "secret" "other@example.com" "Other"))
    as (_ & Hsame & _).
  split; [reflexivity|]. apply Hsame. reflexivity.
Defined.

(** X12.  Registration keeps usernames and emails distinct: in a reachable store
    whose users differ pairwise in username and in email, compared
    case-insensitively, they still do after a registration request. *)
Theorem register_keeps_distinct (toLowerCase : string → string) (now : Date)
    (s : MemStorage) (x : InsertUser.t) :
  reachable s → usersDistinct toLowerCase s →
  usersDistinct toLowerCase (postRegister toLowerCase now s x).2.
Proof.
  intros (Wu & _)%reachable_wfStore [Hnames Hemails]. unfold postRegister.
  destruct (getUserByUsername toLowerCase s (InsertUser.username x))
    as [u|] eqn:Hname; [by split|].
  destruct (getUserByEmail toLowerCase s (InsertUser.email x))
    as [u|] eqn:Hemail; [by split|].
  unfold getUserByUsername in Hname. unfold getUserByEmail in Hemail.
  rewrite arrayFind_None in Hname. rewrite arrayFind_None in Hemail.
  unfold usersDistinct, createUser. cbn [snd users].
  rewrite (values_set_new User.id _ _ _ Wu), !fmap_app.
  split; apply NoDup_app; (split; [done|]);
    (split; [|apply NoDup_singleton]);
    intros k (u & -> & Hu)%list_elem_of_fmap Hk%list_elem_of_singleton;
    simpl in Hk.
  - by apply (Hname u).
  - by apply (Hemail u).
Qed.

Lemma register_keeps_distinct_witness :
  usersDistinct UtcMore.toLowerCase
    (postRegister UtcMore.toLowerCase Demo.now Demo.store
       (InsertUser.mk "alice" "secret" "alice@example.com" "Alice")).2.
Proof.
  apply register_keeps_distinct;
    [exact reachable_demo_store | exact usersDistinct_demo].
Defined.

(** X13.  After a successful registration in a reachable store, logging in with
    the registered password and the registered username in any casing
    succeeds: 200 with the same user, and the session carries the new
    user's id. *)
Theorem register_then_login (toLowerCase : string → string) (now : Date)
    (s : MemStorage) (x : InsertUser.t) (session : Session) (q : string) :
  reachable s →
  status (postRegister toLowerCase now s x).1 = 201 →
  toLowerCase q = toLowerCase (InsertUser.username x) →
  postLogin toLowerCase (postRegister toLowerCase now s x).2 session q
            (InsertUser.password x)
  = (mkResponse 200 (inl (withoutPassword (createUser now s x).1)),
     Some (userIdCounter s)).
Proof.
  intros (Wu & _)%reachable_wfStore Hstatus Hq.
  destruct (register_outcome toLowerCase now s x) as (H400 & _ & Hok).
  rewrite Hok by (rewrite Hstatus; done). cbn [snd].
  assert (Hnone : getUserByUsername toLowerCase s q = None).
  { unfold getUserByUsername. rewrite arrayFind_None. intros u Hin Hu.
    assert (H : status (postRegister toLowerCase now s x).1 = 400).
    { apply H400. exists u. split; [done|]. left. congruence. }
    rewrite Hstatus in H. done. }
  unfold postLogin, getUserByUsername in *.
  unfold createUser at 1. cbn [snd users].
  rewrite (values_set_new User.id _ _ _ Wu).
  rewrite arrayFind_app_r by done.
  rewrite arrayFind_cons, decide_True by (simpl; congruence).
  simpl. rewrite decide_False by (intros H; by apply H). done.
Qed.

Lemma register_then_login_witness :
  postLogin UtcMore.toLowerCase
    (postRegister UtcMore.toLowerCase Demo.now Demo.store
       (InsertUser.mk "alice" "secret" "alice@example.com" "Alice")).2
    None "ALICE" "secret"
  = (mkResponse 200
       (inl (UserWithoutPassword.mk 2 "alice" "alice@example.com" "Alice"
                                    Demo.now)),
     Some 2).
Proof.
  etrans;
    [exact (register_then_login UtcMore.toLowerCase Demo.now Demo.store
              (InsertUser.mk "alice" "secret" "alice@example.com" "Alice")
              None "ALICE" reachable_demo_store eq_refl eq_refl)|].
  reflexivity.
Defined.

(** X14.  Where the stored usernames are distinct, a login succeeds exactly for
    the username (in any casing) and password of a stored user: it then
    answers 200 with that user, password removed, and puts the user's id
    in the session; every other login answers 401 with one and the same
    message and leaves the session as it was. *)
Theorem login_outcome (toLowerCase : string → string) (s : MemStorage)
    (session : Session) (q p : string) :
  usernamesDistinct toLowerCase s →
  (∃ user, user ∈ JsMap.values (users s) ∧
     toLowerCase (User.username user) = toLowerCase q ∧
     User.password user = p ∧
     postLogin toLowerCase s session q p
     = (mkResponse 200 (inl (withoutPassword user)), Some (User.id user))) ∨
  ((∀ user, user ∈ JsMap.values (users s) →
      toLowerCase (User.username user) = toLowerCase q →
      User.password user ≠ p) ∧
   postLogin toLowerCase s session q p
   = (mkResponse 401 (inr "Invalid credentials"), session)).
Proof.
  intros Hnames. unfold postLogin.
  destruct (getUserByUsername toLowerCase s q) as [user|] eqn:Hfind.
  - pose proof Hfind as [Hin Hq]%arrayFind_Some.
    destruct (decide (User.password user ≠ p)) as [Hp|Hp].
    + right. split; [|done]. intros user' Hin' Hq'.
      assert (Hsame : getUserByUsername toLowerCase s q = Some user').
      { unfold getUserByUsername. rewrite <- Hq'.
        by apply (arrayFind_unique (λ u, toLowerCase (User.username u))). }
      congruence.
    + left. exists user. apply dec_stable in Hp. done.
  - right. split; [|done]. intros user Hin Hq.
    unfold getUserByUsername in Hfind. rewrite arrayFind_None in Hfind.
    by destruct (Hfind user Hin).
Qed.

Lemma login_outcome_witness :
  postLogin UtcMore.toLowerCase Demo.store None "Demo" "password"
  = (mkResponse 200
       (inl (UserWithoutPassword.mk 1 "demo" "demo@example.com" "Demo User"
                                    Demo.now)),
     Some 1) ∧
  postLogin UtcMore.toLowerCase Demo.store (Some 7) "demo" "Password"
  = (mkResponse 401 (inr "Invalid credentials"), Some 7).
Proof.
  split.
  - destruct (login_outcome UtcMore.toLowerCase Demo.store None "Demo"
                "password" usernamesDistinct_demo)
      as [(user & _ & _ & _ & Hrun)|[_ Hrun]]; [reflexivity|].
    vm_compute in Hrun. discriminate Hrun.
  - destruct (login_outcome UtcMore.toLowerCase Demo.store (Some 7) "demo"
                "Password" usernamesDistinct_demo)
      as [(user & Hin & _ & Hp & _)|[_ Hrun]]; [|exact Hrun].
    apply list_elem_of_singleton in Hin. subst user. discriminate Hp.
Defined.

(** X15.  In a reachable store the session that a successful login leaves
    identifies the user: [GET /api/auth/me] with it answers 200 with the
    same body as the login did; after a logout it answers 401. *)
Theorem login_then_me (toLowerCase : string → string) (s : MemStorage)
    (session session' : Session) (q p : string)
    (body : UserWithoutPassword.t + string) :
  reachable s →
  postLogin toLowerCase s session q p = (mkResponse 200 body, session') →
  getMe s session' = mkResponse 200 body ∧
  getMe s (postLogout session').2 = unauthorized.
Proof.
  intros (Wu & _)%reachable_wfStore. unfold postLogin.
  destruct (getUserByUsername toLowerCase s q) as [user|] eqn:Hfind;
    [|intros [=]].
  destruct (decide (User.password user ≠ p)); [intros [=]|].
  intros [= <- <-]. split; [|done].
  apply arrayFind_Some in Hfind as [Hin _].
  destruct (wfMap_value_get User.id _ _ _ Wu Hin) as [Hget Hid].
  unfold getMe, isAuthenticated, getUser.
  rewrite decide_False by lia. by rewrite Hget.
Qed.

Lemma login_then_me_witness :
  getMe Demo.store (postLogin UtcMore.toLowerCase Demo.store None "DEMO"
                              "password").2
  = mkResponse 200
      (inl (UserWithoutPassword.mk 1 "demo" "demo@example.com" "Demo User"
                                   Demo.now)).
Proof.
  apply (login_then_me UtcMore.toLowerCase Demo.store None _ "DEMO"
           "password" _ reachable_demo_store eq_refl).
Defined.

(** ** The demo data *)

Lemma elem_of_values_set {V} (k : Z) (v : V) (m : JsMap.t V) :
  v ∈ JsMap.values (JsMap.set k v m).
Proof.
  unfold JsMap.values. induction m as [|[k' v'] m IH]; simpl.
  - apply list_elem_of_here.
  - destruct (decide (k' = k)); csimpl.
    + apply list_elem_of_here.
    + by apply list_elem_of_further.
Qed.

Section SeedFacts.

Variable toLowerCase : string → string.
Variable newDate : Z → Z → Z → Date.
Variable getFullYear : Date → Z.
Variable getMonth : Date → Z.
Variable setMonth : Date → Z → Date.

Local Abbreviation seed :=
  (seedInitialData toLowerCase newDate getFullYear getMonth setMonth).

(** The demo user as [seedInitialData] creates it in [s] at [now]. *)
Local Abbreviation demoUser now s :=
  {| User.id := userIdCounter s; User.username := "demo";
     User.password := "password"; User.email := "demo@example.com";
     User.name := "Demo User"; User.createdAt := now |}.

Lemma seed_present (now : Date) (s : MemStorage) (user : User.t) :
  getUserByUsername toLowerCase s "demo" = Some user → seed now s = s.
Proof. unfold seedInitialData. by intros ->. Qed.

Lemma seed_users (now : Date) (s : MemStorage) :
  getUserByUsername toLowerCase s "demo" = None →
  users (seed now s)
  = JsMap.set (userIdCounter s) (demoUser now s) (users s).
Proof.
  unfold seedInitialData. intros ->. cbn -[Qcminus Q2Qc].
  unfold updateAccountBalance. by destruct (JsMap.get _ _).
Qed.

(** X16.  Seeding is idempotent: a second run, at whatever time, leaves the
    store of the first run as it is. *)
Theorem seed_idempotent (now1 now2 : Date) (s : MemStorage) :
  seed now2 (seed now1 s) = seed now1 s.
Proof.
  destruct (getUserByUsername toLowerCase s "demo") as [user|] eqn:Hfind.
  - rewrite (seed_present now1 s user Hfind).
    by apply (seed_present now2 s user).
  - assert (Hsome : is_Some (getUserByUsername toLowerCase (seed now1 s)
                                               "demo")).
    { unfold getUserByUsername, arrayFind. rewrite seed_users by done.
      apply fmap_is_Some.
      apply (list_find_elem_of _ _ (demoUser now1 s));
        [apply elem_of_values_set | done]. }
    destruct Hsome as [user Huser]. by apply (seed_present now2 _ user).
Qed.

Lemma seed_reachable (now : Date) (s : MemStorage) :
  reachable s → reachable (seed now s).
Proof.
  intros Hreach. unfold seedInitialData.
  destruct (getUserByUsername toLowerCase s "demo"); [done|].
  destruct (createUser now s _) as [user s1] eqn:E1.
  destruct (createAccount s1 _) as [checkingAccount s2] eqn:E2.
  destruct (createAccount s2 _) as [savingsAccount s3] eqn:E3.
  destruct (createCategory s3 _) as [housingCategory s4] eqn:E4.
  destruct (createCategory s4 _) as [foodCategory s5] eqn:E5.
  destruct (createCategory s5 _) as [transportationCategory s6] eqn:E6.
  destruct (createCategory s6 _) as [entertainmentCategory s7] eqn:E7.
  destruct (createCategory s7 _) as [incomeCategory s8] eqn:E8.
  apply reach_updateAccountBalance.
  do 5 apply reach_createTransaction. do 4 apply reach_createBudget.
  apply (f_equal snd) in E1, E2, E3, E4, E5, E6, E7, E8. cbn [snd] in *.
  rewrite <- E8. apply reach_createCategory.
  rewrite <- E7. apply reach_createCategory.
  rewrite <- E6. apply reach_createCategory.
  rewrite <- E5. apply reach_createCategory.
  rewrite <- E4. apply reach_createCategory.
  rewrite <- E3. apply reach_createAccount.
  rewrite <- E2. apply reach_createAccount.
  rewrite <- E1. by apply reach_createUser.
Qed.

(** X17.  Seeding a store that has no user "demo" (in any casing) creates one
    user, two accounts, five categories, four budgets and five
    transactions; the final balance update finds its account, so that the
    checking account ends with the balance 2620 - 1450 - 84.32 - 45.67 -
    14.99 in place of its opening 5000; and the seeded store is reachable
    when the given one is. *)
Theorem seed_creates (now : Date) (s : MemStorage) :
  getUserByUsername toLowerCase s "demo" = None →
  userIdCounter (seed now s) = userIdCounter s + 1 ∧
  accountIdCounter (seed now s) = accountIdCounter s + 1 + 1 ∧
  categoryIdCounter (seed now s) = categoryIdCounter s + 1 + 1 + 1 + 1 + 1 ∧
  budgetIdCounter (seed now s) = budgetIdCounter s + 1 + 1 + 1 + 1 ∧
  transactionIdCounter (seed now s)
  = transactionIdCounter s + 1 + 1 + 1 + 1 + 1 ∧
  getUser (seed now s) (userIdCounter s) = Some (demoUser now s) ∧
  getAccount (seed now s) (accountIdCounter s)
  = Some {| Account.id := accountIdCounter s;
            Account.userId := userIdCounter s;
            Account.name := "Checking Account";
            Account.type := "checking";
            Account.balance :=
              (Q2Qc 2620 - Q2Qc 1450 - Q2Qc (8432 # 100) - Q2Qc (4567 # 100)
               - Q2Qc (1499 # 100))%Qc;
            Account.isConnected := false |} ∧
  (reachable s → reachable (seed now s)).
Proof.
  intros Hnone.
  split_and!; [..|apply seed_reachable];
    unfold seedInitialData; rewrite Hnone;
    cbn -[Qcminus Q2Qc JsMap.get JsMap.set];
    unfold updateAccountBalance, getUser, getAccount;
    cbn -[Qcminus Q2Qc JsMap.get JsMap.set];
    rewrite !(JsMapFacts.get_set_ne (accountIdCounter s + 1)) by lia;
    rewrite !JsMapFacts.get_set_eq;
    cbn -[Qcminus Q2Qc JsMap.get JsMap.set];
    first [done | apply JsMapFacts.get_set_eq].
Qed.

(** X18.  After seeding a reachable store that had no user "demo", a login as
    "demo" (in any casing) with the password "password" succeeds and puts
    the demo user's id in the session. *)
Theorem seed_then_login (now : Date) (s : MemStorage) (session : Session)
    (q : string) :
  reachable s → getUserByUsername toLowerCase s "demo" = None →
  toLowerCase q = toLowerCase "demo" →
  postLogin toLowerCase (seed now s) session q "password"
  = (mkResponse 200 (inl (withoutPassword (demoUser now s))),
     Some (userIdCounter s)).
Proof.
  intros (Wu & _)%reachable_wfStore Hnone Hq.
  unfold postLogin, getUserByUsername in *.
  rewrite seed_users by done.
  rewrite (values_set_new User.id _ _ _ Wu).
  rewrite Hq, arrayFind_app_r by done.
  rewrite arrayFind_cons, decide_True by done.
  simpl. done.
Qed.

End SeedFacts.

Lemma seed_creates_witness :
  let s := seedInitialData UtcMore.toLowerCase Utc.newDate Utc.getFullYear
                           UtcMore.getMonth UtcMore.setMonth Demo.now
                           newMemStorage in
  transactionIdCounter s = 6 ∧
  Qcanon.this <$> (Account.balance <$> getAccount s 1)
  = Some (51251 # 50)%Q.
Proof.
  intros s.
  destruct (seed_creates UtcMore.toLowerCase Utc.newDate Utc.getFullYear
              UtcMore.getMonth UtcMore.setMonth Demo.now newMemStorage
              eq_refl) as (_ & _ & _ & _ & Htx & _ & Hacc & _).
  split; [exact Htx|]. subst s.
  etrans; [exact (f_equal (λ o, Qcanon.this <$> (Account.balance <$> o)) Hacc)|].
  reflexivity.
Defined.

Lemma seed_then_login_witness :
  postLogin UtcMore.toLowerCase
    (seedInitialData UtcMore.toLowerCase Utc.newDate Utc.getFullYear
                     UtcMore.getMonth UtcMore.setMonth Demo.now newMemStorage)
    None "Demo" "password"
  = (mkResponse 200
       (inl (UserWithoutPassword.mk 1 "demo" "demo@example.com" "Demo User"
                                    Demo.now)),
     Some 1).
Proof.
  etrans;
    [exact (seed_then_login UtcMore.toLowerCase Utc.newDate Utc.getFullYear
              UtcMore.getMonth UtcMore.setMonth Demo.now newMemStorage
              None "Demo" reach_new eq_refl eq_refl)|].
  reflexivity.
Defined.

(** ** Ownership in the creating routes *)

(** X19.  A creating route never acts without a session, and a record it
    creates belongs to the session's user, whatever [userId] the body
    carries: without a session (or with the user id 0) the answer is 401
    and the store is unchanged; with one, the answer is 201 and the created
    account, category, budget or transaction has the session's user as its
    [userId]. *)
Theorem created_records_belong_to_session (s : MemStorage)
    (session : Session) :
  ((session = None ∨ session = Some 0) →
   (∀ body, postAccount s session body = (unauthorized, s)) ∧
   (∀ body, postCategory s session body = (unauthorized, s)) ∧
   (∀ body, postBudget s session body = (unauthorized, s)) ∧
   (∀ body, postTransactionRequest s session body = (unauthorized, s))) ∧
  (∀ userId, session = Some userId → userId ≠ 0 →
   (∀ body, ∃ created s',
      postAccount s session body = (mkResponse 201 (inl created), s') ∧
      Account.userId created = userId ∧
      getAccount s' (Account.id created) = Some created) ∧
   (∀ body, ∃ created s',
      postCategory s session body = (mkResponse 201 (inl created), s') ∧
      Category.userId created = userId ∧
      getCategory s' (Category.id created) = Some created) ∧
   (∀ body, ∃ created s',
      postBudget s session body = (mkResponse 201 (inl created), s') ∧
      Budget.userId created = userId ∧
      getBudget s' (Budget.id created) = Some created) ∧
   (∀ body, ∃ created s',
      postTransactionRequest s session body
      = (mkResponse 201 (inl created), s') ∧
      Transaction.userId created = userId ∧
      getTransaction s' (Transaction.id created) = Some created)).
Proof.
  split.
  - intros [->| ->]; repeat split.
  - intros userId -> Hne.
    unfold postAccount, postCategory, postBudget, postTransactionRequest,
      isAuthenticated. cbn beta iota.
    destruct (decide (userId = 0)) as [?|_]; [done|].
    split; [|split; [|split]]; intros body.
    + eexists _, _. split; [reflexivity|]. split; [reflexivity|].
      apply JsMapFacts.get_set_eq.
    + eexists _, _. split; [reflexivity|]. split; [reflexivity|].
      apply JsMapFacts.get_set_eq.
    + eexists _, _. split; [reflexivity|]. split; [reflexivity|].
      apply JsMapFacts.get_set_eq.
    + set (validatedData := InsertTransaction.mk userId _ _ _ _ _ _ _).
      unfold postTransaction.
      pose proof (createTransaction_stored s validatedData) as Hstored.
      destruct (createTransaction s validatedData) as [created s1] eqn:Hcreate.
      assert (Hu : Transaction.userId created = userId).
      { apply (f_equal fst) in Hcreate. simpl in Hcreate. by subst created. }
      cbn [fst snd] in Hstored.
      destruct (getAccount s1 (InsertTransaction.accountId validatedData))
        as [account|] eqn:Hacc.
      * match goal with
        | |- context [updateAccountBalance s1 ?i ?b] =>
            destruct (updateAccountBalance_present s1 i b account Hacc)
              as (s2 & Hrun & _ & _ & _ & Htx & _)
        end.
        rewrite Hrun. exists created, s2. split; [done|]. split; [done|].
        unfold getTransaction in *. by rewrite Htx.
      * by exists created, s1.
Qed.

Lemma created_records_belong_to_session_witness :
  ∃ created s',
    postAccount Demo.store (Some 1)
                (InsertAccount.mk 42 "Cash" "cash" (Q2Qc 10) false)
    = (mkResponse 201 (inl created), s') ∧
    Account.userId created = 1 ∧
  postAccount Demo.store None
              (InsertAccount.mk 42 "Cash" "cash" (Q2Qc 10) false)
  = (unauthorized, Demo.store).
Proof.
  destruct (created_records_belong_to_session Demo.store (Some 1))
    as [_ Hin].
  destruct (Hin 1 eq_refl) as (Hacc & _); [discriminate|].
  destruct (Hacc (InsertAccount.mk 42 "Cash" "cash" (Q2Qc 10) false))
    as (created & s' & Hrun & Hu & _).
  exists created, s'. split; [exact Hrun|]. split; [exact Hu|].
  destruct (created_records_belong_to_session Demo.store None) as [Hout _].
  destruct Hout as (Hnone & _); [by left|]. apply Hnone.
Defined.

(** ** Balance update for other transaction types *)

(** X20.  The balance update of [POST /api/transactions] adds the amount only
    for the type "income"; for every other type, known or not ("expense",
    "transfer", "Income", ...), it subtracts the amount from the balance of
    the referenced account, and answers 201. *)
Theorem postTransaction_subtracts_unless_income (s : MemStorage)
    (validatedData : InsertTransaction.t) (account : Account.t) :
  getAccount s (InsertTransaction.accountId validatedData) = Some account →
  InsertTransaction.type validatedData ≠ "income" →
  status (postTransaction s validatedData).1 = 201 ∧
  getAccount (postTransaction s validatedData).2
             (InsertTransaction.accountId validatedData)
  = Some (withBalance account
            (Account.balance account
             - InsertTransaction.amount validatedData)%Qc).
Proof.
  intros Hget Hty. unfold postTransaction.
  destruct (createTransaction s validatedData) as [created s1] eqn:Hcreate.
  assert (Hget1 : getAccount s1 (InsertTransaction.accountId validatedData)
                  = Some account).
  { apply (f_equal snd) in Hcreate. simpl in Hcreate. by subst s1. }
  rewrite Hget1, decide_False by done.
  destruct (updateAccountBalance_present s1
              (InsertTransaction.accountId validatedData)
              (Account.balance account
               - InsertTransaction.amount validatedData)%Qc account Hget1)
    as (s2 & Hrun & Hacc & _).
  rewrite Hrun. split; [done|]. cbn [snd]. unfold getAccount.
  rewrite Hacc. apply JsMapFacts.get_set_eq.
Qed.

Lemma postTransaction_subtracts_unless_income_witness :
  Account.balance
  <$> getAccount
        (postTransaction Demo.store
           (Demo.tx 1 None (Q2Qc 30) "To savings" 16 "transfer" "Bank")).2 1
  = Some (Q2Qc 5000 - Q2Qc 30)%Qc.
Proof.
  destruct (postTransaction_subtracts_unless_income Demo.store
              (Demo.tx 1 None (Q2Qc 30) "To savings" 16 "transfer" "Bank")
              _ eq_refl) as [_ Hacc]; [discriminate|].
  etrans; [exact (f_equal (fmap Account.balance) Hacc)|]. reflexivity.
Defined.

(** ** Date range against the full list *)

(** X21.  The transactions of a date range are the user's list restricted to
    the range, in the same order; so the lists returned by
    [getTransactionsByDateRange], [getTransactionsByUserId] and
    [getRecentTransactions] never disagree on the order of two
    transactions. *)
Theorem date_range_is_restriction (s : MemStorage) (userId : Z)
    (startDate endDate : Date) :
  getTransactionsByDateRange s userId startDate endDate
  = filter (λ t, startDate ≤ Transaction.date t ≤ endDate)
           (getTransactionsByUserId s userId).
Proof.
  unfold getTransactionsByDateRange, getTransactionsByUserId.
  rewrite sort_filter, list_filter_filter. f_equal.
  apply list_filter_iff. intros t. tauto.
Qed.
